(** * Traffic count study app: record store, aggregator and page script

    A shallow embedding of [appy.py]: the CSV-backed record store
    ([load_data], [add_entry], [clear_data]), the hourly aggregation
    ([analyze_data]), the sample generator ([auto_generate_data]) and the
    Streamlit page script ([main]), followed by the properties the
    specification states about them.

    Modelling conventions.
    - A timestamp is the number of microseconds since a fixed local-time
      epoch; [dt_hour] is the hour-of-day component that [.dt.hour] reads.
      The [Date] column holds the day number whose [%Y-%m-%d] rendering the
      source stores.
    - The CSV file is kept as the table it encodes: writing with [to_csv] and
      reading back with [read_csv] and [to_datetime] is lossless on the five
      columns, so the textual encoding stays inside the storage boundary.
      Only files written by this program are represented.
    - Counts are kept in [Z]. The count columns of a frame are int64
      columns, which is what [read_csv] yields for every file the widgets
      and the generator can write: the store operations are exact on
      counts of that range, and the arithmetic of [analyze_data] wraps
      around as int64 arithmetic does.
    - [datetime.now()] and [random.randint] read from an environment: the
      n-th clock reading and the n-th raw random draw. *)

From Stdlib Require Import ZArith List Bool String Lia Arith Permutation.
From Stdlib Require Import DecimalString.
Import ListNotations.

Local Open Scope string_scope.
Local Open Scope list_scope.
Local Open Scope Z_scope.

(** ** Constants of the script *)

Definition RECORDS_PER_ANALYSIS : nat := 24.
Definition AUTO_INTERVAL_SECONDS : Z := 10.
Definition HIGH_TRAFFIC_THRESHOLD : Z := 50.

Definition MICROS_PER_SECOND : Z := 1000000.
Definition MICROS_PER_HOUR : Z := 3600 * MICROS_PER_SECOND.
Definition MICROS_PER_DAY : Z := 24 * MICROS_PER_HOUR.

(** ** Data model *)

(** One row of the stored table, with the five columns of the CSV header. *)
Record TrafficRecord := mkRecord {
  Date : Z;
  Time : Z;
  Cars : Z;
  Bicycles : Z;
  Pedestrians : Z
}.

(** A five-column frame: what [read_csv] yields and [to_csv] writes. *)
Definition Table := list TrafficRecord.

(** The dtype of the [Time] column of a frame: a datetime column once
    [pd.to_datetime] has been applied, an object column before that and in
    a frame built by [pd.DataFrame(columns=...)]. *)
Inductive dtype := datetime64 | object.

(** A frame as [analyze_data] sees it: the five base columns, the dtype of
    its [Time] column, and the two derived columns once they have been
    assigned. *)
Record DataFrame := mkFrame {
  base : Table;
  Time_dtype : dtype;
  Total : option (list Z);
  Hour : option (list Z)
}.

(** The frame the read path of [load_data] returns for a table: [Time] has
    been parsed, no derived column yet. *)
Definition frame_of (t : Table) : DataFrame := mkFrame t datetime64 None None.

(** [pd.DataFrame(columns=['Date','Time','Cars','Bicycles','Pedestrians'])]:
    no rows, every column of object dtype. *)
Definition fresh_frame : DataFrame := mkFrame [] object None None.

(** The range of an int64 column, and int64 arithmetic on values kept in
    [Z]: a result outside the range wraps around. *)
Definition INT64_MIN : Z := -9223372036854775808.
Definition INT64_MAX : Z := 9223372036854775807.
Definition wrap64 (z : Z) : Z :=
  (z - INT64_MIN) mod 18446744073709551616 + INT64_MIN.

(** A Series indexed by hour, in index order. *)
Definition Series := list (Z * Z).

Definition valid_record (r : TrafficRecord) : Prop :=
  0 <= Cars r /\ 0 <= Bicycles r /\ 0 <= Pedestrians r.

(** [ts.hour] and [ts.strftime('%Y-%m-%d')] of a timestamp. *)
Definition dt_hour (t : Z) : Z := (t / MICROS_PER_HOUR) mod 24.
Definition dt_date (t : Z) : Z := t / MICROS_PER_DAY.

Definition string_of_Z (z : Z) : string := NilZero.string_of_int (Z.to_int z).

(** ** Exceptions and results *)

(** The exceptions of the script. The first four are Python's own;
    [EmptyInputError] is the error class the specification names, which
    the source neither defines nor raises. *)
Inductive exn :=
| FileNotFoundError
| KeyError (column : string)
| AttributeError (name : string)
| ValueError (msg : string)
| EmptyInputError.

Inductive result (A : Type) :=
| Ok (a : A)
| Raise (e : exn).
Arguments Ok {A} a.
Arguments Raise {A} e.

(** ** The page and the world *)

(** What the script has put on the page, in call order. *)
Inductive element :=
| st_title (s : string)
| st_header (s : string)
| st_subheader (s : string)
| st_number_input (label : string)
| st_button (label : string)
| st_error (s : string)
| st_success (s : string)
| st_info (s : string)
| st_write (df : Table)
| st_pyplot_line (data : list (Z * Z * Z * Z))
| st_pyplot_bar (s : Series).

(** The state the script runs against: the CSV file (absent or holding a
    table), how many clock readings and random draws have been consumed,
    the session's [last_auto_time] and the page rendered so far. *)
Record World := mkWorld {
  csv_file : option Table;
  ticks : nat;
  draws : nat;
  last_auto_time : option Z;
  page : list element
}.

Definition set_csv (f : option Table) (w : World) : World :=
  mkWorld f (ticks w) (draws w) (last_auto_time w) (page w).
Definition set_ticks (n : nat) (w : World) : World :=
  mkWorld (csv_file w) n (draws w) (last_auto_time w) (page w).
Definition set_draws (n : nat) (w : World) : World :=
  mkWorld (csv_file w) (ticks w) n (last_auto_time w) (page w).
Definition set_last_auto_time (t : option Z) (w : World) : World :=
  mkWorld (csv_file w) (ticks w) (draws w) t (page w).
Definition set_page (p : list element) (w : World) : World :=
  mkWorld (csv_file w) (ticks w) (draws w) (last_auto_time w) p.

(** ** The monad of the script: state plus exceptions *)

Definition M (A : Type) : Type := World -> result A * World.

Definition ret {A} (a : A) : M A := fun w => (Ok a, w).

Definition bind {A B} (c : M A) (k : A -> M B) : M B :=
  fun w =>
    match c w with
    | (Ok a, w') => k a w'
    | (Raise e, w') => (Raise e, w')
    end.

Definition raise {A} (e : exn) : M A := fun w => (Raise e, w).

(** [try: c except FileNotFoundError: h] *)
Definition try_except_FileNotFoundError {A} (c : M A) (h : M A) : M A :=
  fun w =>
    match c w with
    | (Raise FileNotFoundError, w') => h w'
    | r => r
    end.

Definition lift {A} (r : result A) : M A := fun w => (r, w).

Declare Scope py_scope.
Delimit Scope py_scope with py.
Notation "x <- c ;; k" := (bind c (fun x => k))
  (at level 61, c at next level, right associativity) : py_scope.
Notation "c ;; k" := (bind c (fun _ => k))
  (at level 61, right associativity) : py_scope.
Local Open Scope py_scope.

Definition when (b : bool) (c : M unit) : M unit := if b then c else ret tt.

(** Primitive effects. *)
Definition st (e : element) : M unit :=
  fun w => (Ok tt, set_page (page w ++ [e]) w).

Definition path_exists : M bool :=
  fun w => (Ok (match csv_file w with Some _ => true | None => false end), w).

Definition os_remove : M unit :=
  fun w =>
    match csv_file w with
    | Some _ => (Ok tt, set_csv None w)
    | None => (Raise FileNotFoundError, w)
    end.

(** [pd.read_csv(CSV_FILE)]: the rows of the file, with [Time] still the
    text the file holds. The count columns are returned as stored, which
    is exact for the int64 columns of every file the page and the
    generator write. *)
Definition read_csv : M DataFrame :=
  fun w =>
    match csv_file w with
    | Some t => (Ok (mkFrame t object None None), w)
    | None => (Raise FileNotFoundError, w)
    end.

(** [df['Time'] = pd.to_datetime(df['Time'])] *)
Definition to_datetime (df : DataFrame) : DataFrame :=
  mkFrame (base df) datetime64 (Total df) (Hour df).

(** [df.to_csv(CSV_FILE, index=False)] on the rows of a five-column frame:
    the file keeps the rows, a dtype is no part of it. *)
Definition to_csv (df : Table) : M unit :=
  fun w => (Ok tt, set_csv (Some df) w).

Definition get_last_auto_time : M (option Z) :=
  fun w => (Ok (last_auto_time w), w).

Definition put_last_auto_time (t : Z) : M unit :=
  fun w => (Ok tt, set_last_auto_time (Some t) w).

(** [pd.concat([df, new_entry], ignore_index=True)] on the rows of two
    five-column frames, exact on int64 count columns. *)
Definition concat (df new_entry : Table) : Table := df ++ new_entry.

(** [len(df)]: the number of rows. *)
Definition len (df : Table) : nat := List.length df.

(** [df.sort_values('Time')]: the rows in increasing order of [Time].
    Among rows of equal [Time] pandas leaves the order to its sorting
    algorithm; here they keep their order. *)
Fixpoint insert_by_time (r : TrafficRecord) (l : Table) : Table :=
  match l with
  | [] => [r]
  | x :: l' => if Time r <? Time x then r :: l else x :: insert_by_time r l'
  end.

Definition sort_values (df : Table) : Table := fold_right insert_by_time [] df.

(** [df.set_index('Time')[['Cars', 'Bicycles', 'Pedestrians']]]: what the
    line chart plots, one point per row for each of the three columns. *)
Definition plot_columns (df : Table) : list (Z * Z * Z * Z) :=
  map (fun r => (Time r, Cars r, Bicycles r, Pedestrians r)) df.

Section Script.

(** The environment: the n-th reading of the wall clock and the n-th raw
    draw of the random generator. *)
Variable clock : nat -> Z.
Variable entropy : nat -> Z.

Definition datetime_now : M Z :=
  fun w => (Ok (clock (ticks w)), set_ticks (S (ticks w)) w).

(** [random.randint(a, b)]: an integer of [a..b], both ends included. *)
Definition randint (a b : Z) : M Z :=
  fun w => (Ok (a + entropy (draws w) mod (b - a + 1)),
            set_draws (S (draws w)) w).

(** ** Record store *)

Definition load_data : M DataFrame :=
  try_except_FileNotFoundError
    (df <- read_csv ;;
     let df := to_datetime df in
     ret df)
    (let df := fresh_frame in
     to_csv (base df) ;;
     ret df).

Definition add_entry (cars bicycles pedestrians : Z) : M unit :=
  df <- load_data ;;
  d <- datetime_now ;;
  t <- datetime_now ;;
  let new_entry := [mkRecord (dt_date d) t cars bicycles pedestrians] in
  let df := concat (base df) new_entry in
  to_csv df.

Definition clear_data : M unit :=
  ex <- path_exists ;;
  if ex then
    os_remove ;;
    st (st_success "All previous traffic data has been cleared!")
  else
    st (st_info "No data file found to delete.").

(** ** Aggregator *)

(** Element-wise sum of two int64 columns of one frame. *)
Definition col_add (a b : list Z) : list Z :=
  map (fun xy => wrap64 (fst xy + snd xy)) (combine a b).

(** Adds [t] to the group of key [h] with int64 addition, keeping the keys
    in increasing order. *)
Fixpoint group_add (h t : Z) (s : Series) : Series :=
  match s with
  | [] => [(h, t)]
  | (h', t') :: s' =>
      if h <? h' then (h, t) :: s
      else if h =? h' then (h', wrap64 (t' + t)) :: s'
      else (h', t') :: group_add h t s'
  end.

(** [df.groupby(key)[val].sum()]: one entry per distinct key, keys sorted. *)
Definition groupby_sum (keys vals : list Z) : Series :=
  fold_left (fun s kv => group_add (fst kv) (snd kv) s) (combine keys vals) [].

(** The first entry holding the largest value, scanning in index order. *)
Fixpoint first_max (best : Z * Z) (s : Series) : Z * Z :=
  match s with
  | [] => best
  | x :: s' => if snd best <? snd x then first_max x s' else first_max best s'
  end.

(** [Series.idxmax()]: raises on an empty Series. *)
Definition idxmax (s : Series) : result Z :=
  match s with
  | [] => Raise (ValueError "attempt to get argmax of an empty sequence")
  | x :: s' => Ok (fst (first_max x s'))
  end.

(** [Series.max()]: [None] stands for the NaN of an empty Series. *)
Definition series_max (s : Series) : option Z :=
  match s with
  | [] => None
  | x :: s' => Some (fold_left Z.max (map snd s') (snd x))
  end.

(** [analyze_data(df)]: the frame is a mutable object, so the function
    returns the frame as the call leaves it together with its outcome. The
    [.dt] accessor of line 48 raises on a [Time] column that is not a
    datetime column, after [Total] has been assigned and before [Hour]. *)
Definition analyze_data (df : DataFrame)
  : DataFrame * result (Series * Z * option Z) :=
  let df :=
    mkFrame (base df) (Time_dtype df)
            (Some (col_add (col_add (map Cars (base df))
                                    (map Bicycles (base df)))
                           (map Pedestrians (base df))))
            (Hour df) in
  match Time_dtype df with
  | object =>
      (df, Raise (AttributeError
                    "Can only use .dt accessor with datetimelike values"))
  | datetime64 =>
      let df := mkFrame (base df) (Time_dtype df) (Total df)
                        (Some (map dt_hour (map Time (base df)))) in
      match Hour df, Total df with
      | None, _ => (df, Raise (KeyError "Hour"))
      | _, None => (df, Raise (KeyError "Total"))
      | Some hour, Some total =>
          let traffic_by_hour := groupby_sum hour total in
          match idxmax traffic_by_hour with
          | Raise e => (df, Raise e)
          | Ok peak_hour =>
              let peak_traffic := series_max traffic_by_hour in
              (df, Ok (traffic_by_hour, peak_hour, peak_traffic))
          end
      end
  end.

(** ** Sample generator *)

Definition auto_generate_data : M unit :=
  cars <- randint 0 20 ;;
  bicycles <- randint 0 15 ;;
  pedestrians <- randint 0 30 ;;
  add_entry cars bicycles pedestrians ;;
  st (st_info ("Auto-generated data - Cars: " ++ string_of_Z cars
               ++ ", Bicycles: " ++ string_of_Z bicycles
               ++ ", Pedestrians: " ++ string_of_Z pedestrians)%string).

(** ** The page script *)

(** The widget state of one run: the three number inputs (whose
    [min_value=0] keeps them non-negative) and the two buttons. *)
Record Input := mkInput {
  in_cars : Z;
  in_bicycles : Z;
  in_pedestrians : Z;
  record_clicked : bool;
  clear_clicked : bool
}.

(** What one run did, for the statements below (the script itself returns
    nothing): the clock reading its auto-generation check compared, whether
    that check generated a record, and the table [analyze_data] was called
    on, if it was called. *)
Record Report := mkReport {
  checked_at : Z;
  generated : bool;
  analysed : option Table
}.

Definition format_peak (peak_traffic : option Z) : string :=
  match peak_traffic with
  | Some m => string_of_Z m
  | None => "nan"
  end.

(** Lines 63-81: manual entry, alert and the two buttons. *)
Definition manual_section (i : Input) : M unit :=
  st (st_title "Traffic Count Study App with Auto and Manual Data") ;;
  st (st_header "Manual Entry of Traffic Counts") ;;
  st (st_number_input "Number of Cars") ;;
  let cars := in_cars i in
  st (st_number_input "Number of Bicycles") ;;
  let bicycles := in_bicycles i in
  st (st_number_input "Number of Pedestrians") ;;
  let pedestrians := in_pedestrians i in
  let total_manual := cars + bicycles + pedestrians in
  when (HIGH_TRAFFIC_THRESHOLD <? total_manual)
    (st (st_error ("⚠️ High traffic alert! Total manual vehicles: "
                   ++ string_of_Z total_manual)%string)) ;;
  st (st_button "Record Manual Data") ;;
  when (record_clicked i)
    (add_entry cars bicycles pedestrians ;;
     st (st_success ("Manual data recorded - Cars: " ++ string_of_Z cars
                     ++ ", Bicycles: " ++ string_of_Z bicycles
                     ++ ", Pedestrians: " ++ string_of_Z pedestrians)%string)) ;;
  st (st_button "Clear All Previous Data") ;;
  when (clear_clicked i) clear_data.

(** Lines 84-90: the auto-generation check. [total_seconds()] of a
    difference of microsecond timestamps exceeds [AUTO_INTERVAL_SECONDS]
    exactly when the difference exceeds that many million microseconds. *)
Definition auto_section : M (Z * bool) :=
  last <- get_last_auto_time ;;
  when (match last with None => true | Some _ => false end)
    (t <- datetime_now ;; put_last_auto_time t) ;;
  now <- datetime_now ;;
  last <- get_last_auto_time ;;
  match last with
  | None => raise (AttributeError "last_auto_time")
  | Some last =>
      let time_diff := now - last in
      if AUTO_INTERVAL_SECONDS * MICROS_PER_SECOND <? time_diff then
        auto_generate_data ;;
        t <- datetime_now ;;
        put_last_auto_time t ;;
        ret (now, true)
      else ret (now, false)
  end.

(** Lines 92-121: the table, the line chart and, every 24 records, the
    analysis. *)
Definition display_section : M (option Table) :=
  df <- load_data ;;
  st (st_header "Recorded Traffic Data") ;;
  match base df with
  | [] =>
      st (st_info "No data recorded yet.") ;;
      ret None
  | _ :: _ =>
      st (st_write (base df)) ;;
      let df_sorted := sort_values (base df) in
      st (st_pyplot_line (plot_columns df_sorted)) ;;
      if ((RECORDS_PER_ANALYSIS <=? len (base df))%nat
          && (len (base df) mod RECORDS_PER_ANALYSIS =? 0)%nat)%bool
      then
        r <- lift (snd (analyze_data df)) ;;
        let '(traffic_by_hour, peak_hour, peak_traffic) := r in
        st (st_header "Traffic Analysis") ;;
        st (st_subheader ("Peak traffic hour: " ++ string_of_Z peak_hour
                          ++ ":00 - " ++ format_peak peak_traffic
                          ++ " total vehicles")%string) ;;
        st (st_pyplot_bar traffic_by_hour) ;;
        ret (Some (base df))
      else ret None
  end.

Definition main (i : Input) : M Report :=
  manual_section i ;;
  chk <- auto_section ;;
  an <- display_section ;;
  ret (mkReport (fst chk) (snd chk) an).

End Script.

(** Streamlit runs the script top to bottom on every interaction, on an
    empty page; the file and the session state carry over. *)
Definition rerun (clock entropy : nat -> Z) (i : Input) (w : World)
  : result Report * World :=
  main clock entropy i (set_page [] w).

(** A session: the reports of successive runs, until one raises. *)
Fixpoint session (clock entropy : nat -> Z) (inputs : list Input) (w : World)
  : list Report :=
  match inputs with
  | [] => []
  | i :: inputs' =>
      match rerun clock entropy i w with
      | (Ok r, w') => r :: session clock entropy inputs' w'
      | (Raise _, _) => []
      end
  end.

(** ** Vocabulary of the properties *)

(** The derived values of a record. *)
Definition total_of (r : TrafficRecord) : Z :=
  Cars r + Bicycles r + Pedestrians r.
Definition hour_of (r : TrafficRecord) : Z := dt_hour (Time r).

(** The summed total of hour [h] over a table, and the hours present. *)
Definition hour_total (t : Table) (h : Z) : Z :=
  fold_right Z.add 0 (map total_of (filter (fun r => hour_of r =? h) t)).
Definition hours_present (t : Table) : list Z := map hour_of t.

(** What line 47 computes for a row: the int64 sum of its three counts. *)
Definition total64 (r : TrafficRecord) : Z :=
  wrap64 (wrap64 (Cars r + Bicycles r) + Pedestrians r).

(** The hourly Series of a table: lines 47-49 on its rows. *)
Definition hourly_of (t : Table) : Series :=
  groupby_sum (map hour_of t) (map total64 t).

(** A value, a record and a table that fit int64 columns. *)
Definition in_int64 (z : Z) : Prop := INT64_MIN <= z <= INT64_MAX.
Definition int64_record (r : TrafficRecord) : Prop :=
  in_int64 (Cars r) /\ in_int64 (Bicycles r) /\ in_int64 (Pedestrians r).
Definition int64_table (t : Table) : Prop := Forall int64_record t.

(** A count the store can hold as given: non-negative and within int64.
    The number inputs of the page stay well inside this range. *)
Definition valid_count (z : Z) : Prop := 0 <= z <= INT64_MAX.


(** Every value of a Series fits int64. *)
Definition in_range (s : Series) : Prop := Forall (fun y => in_int64 (snd y)) s.

(** The value a Series holds under index [h], summed over its entries. *)
Fixpoint sum_at (h : Z) (s : Series) : Z :=
  match s with
  | [] => 0
  | (h', t') :: s' => (if h' =? h then t' else 0) + sum_at h s'
  end.

(** The index of a Series is strictly increasing. *)
Fixpoint increasing (s : Series) : Prop :=
  match s with
  | [] => True
  | x :: s' => Forall (fun y => fst x < fst y) s' /\ increasing s'
  end.

Definition is_error (e : element) : bool :=
  match e with
  | st_error _ => true
  | _ => false
  end.

(** The high-traffic alert is the only [st.error] of the script. *)
Definition alert_fired (p : list element) : bool := existsb is_error p.

(** The clock never runs backwards. *)
Definition monotone (clock : nat -> Z) : Prop :=
  forall m n : nat, (m <= n)%nat -> clock m <= clock n.

(** The append scenario: read the clock, load, append, read the clock
    again, load again. *)
Definition append_then_load (clock : nat -> Z) (c b p : Z)
  : M (Z * Table * Z * Table) :=
  (t_in <- datetime_now clock ;;
   before <- load_data ;;
   add_entry clock c b p ;;
   t_out <- datetime_now clock ;;
   after <- load_data ;;
   ret (t_in, base before, t_out, base after))%py.

(** The rows a load returns: the stored table, or nothing when the file is
    missing. *)
Definition stored (w : World) : Table :=
  match csv_file w with
  | Some t => t
  | None => []
  end.

(** The frame a load returns: the parsed frame of the stored table, or the
    fresh frame when the file is missing. *)
Definition loaded (w : World) : DataFrame :=
  match csv_file w with
  | Some t => frame_of t
  | None => fresh_frame
  end.

(** [grows e w w']: from [w] to [w'] the clock readings consumed only grow
    and the page is extended, by an alert exactly when [e] holds. *)
Definition grows (e : bool) (w w' : World) : Prop :=
  (ticks w <= ticks w')%nat
  /\ exists q, page w' = page w ++ q /\ alert_fired q = e.

(** [runs c e]: from every state, [c] returns without raising, and the
    state grows. *)
Definition runs {A} (c : M A) (e : bool) : Prop :=
  forall w, exists a w', c w = (Ok a, w') /\ grows e w w'.

(** [keeps_session c]: [c] leaves the session's [last_auto_time] alone. *)
Definition keeps_session {A} (c : M A) : Prop :=
  forall w, last_auto_time (snd (c w)) = last_auto_time w.

(** The clock reading the check of a run compares, and what it compares it
    with: the session's [last_auto_time], initialised on a first run. *)
Definition check_index (w : World) : nat :=
  match last_auto_time w with
  | Some _ => ticks w
  | None => S (ticks w)
  end.

Definition check_base (clock : nat -> Z) (w : World) : Z :=
  match last_auto_time w with
  | Some l => l
  | None => clock (ticks w)
  end.

Definition interval_elapsed (now last : Z) : bool :=
  AUTO_INTERVAL_SECONDS * MICROS_PER_SECOND <? now - last.

(** [settled clock w T]: the session's [last_auto_time] is set and not
    before [T], and no later clock reading is before [T]. *)
Definition settled (clock : nat -> Z) (w : World) (T : Z) : Prop :=
  (exists l, last_auto_time w = Some l /\ T <= l)
  /\ (forall n, (ticks w <= n)%nat -> T <= clock n).

(** ** Vocabulary of the further properties *)

(** The sum of the values of a Series, and the total over a whole table. *)
Definition series_sum (s : Series) : Z := fold_right Z.add 0 (map snd s).
Definition grand_total (t : Table) : Z := fold_right Z.add 0 (map total_of t).

(** The number inputs of a run respect their [min_value=0]. *)
Definition nonneg_input (i : Input) : Prop :=
  0 <= in_cars i /\ 0 <= in_bicycles i /\ 0 <= in_pedestrians i.

(** A record within the ranges the sample generator draws from. *)
Definition generated_record (r : TrafficRecord) : Prop :=
  0 <= Cars r <= 20 /\ 0 <= Bicycles r <= 15 /\ 0 <= Pedestrians r <= 30.

(** The guard of line 111: the table is a positive number of full batches. *)
Definition batch_complete (t : Table) : bool :=
  ((RECORDS_PER_ANALYSIS <=? len t)%nat
   && (len t mod RECORDS_PER_ANALYSIS =? 0)%nat)%bool.

(** The state a session ends in: the runs of [session], keeping the world. *)
Fixpoint session_world (clock entropy : nat -> Z) (inputs : list Input)
         (w : World) : World :=
  match inputs with
  | [] => w
  | i :: inputs' =>
      match rerun clock entropy i w with
      | (Ok _, w') => session_world clock entropy inputs' w'
      | (Raise _, w') => w'
      end
  end.

(** The records a session appends come from its inputs or from the
    sample generator. *)
Definition appended_by (inputs : list Input) (r : TrafficRecord) : Prop :=
  generated_record r
  \/ exists i, In i inputs /\ record_clicked i = true
               /\ Cars r = in_cars i /\ Bicycles r = in_bicycles i
               /\ Pedestrians r = in_pedestrians i.

(** [keeps_store c]: [c] leaves the stored table as it was. *)
Definition keeps_store {A} (c : M A) : Prop :=
  forall w, stored (snd (c w)) = stored w.

(** [adds P c]: [c] returns without raising and extends the page by
    elements satisfying [P] only. *)
Definition adds {A} (P : element -> bool) (c : M A) : Prop :=
  forall w, exists a w',
    c w = (Ok a, w') /\ exists q, page w' = page w ++ q /\ forallb P q = true.

(** The elements that show data: the table, the charts, the analysis. *)
Definition is_data (e : element) : bool :=
  match e with
  | st_write _ | st_pyplot_line _ | st_pyplot_bar _ | st_subheader _ => true
  | _ => false
  end.

Definition is_chrome (e : element) : bool := negb (is_data e).

(** ** Sample data for the worked instances *)

(** A clock that advances two seconds per reading. *)
Definition sample_clock (n : nat) : Z := 1700000000000000 + Z.of_nat n * 2000000.
Definition sample_entropy (n : nat) : Z := Z.of_nat n * 7.

(** A fresh session on a machine without a data file. *)
Definition fresh_world : World := mkWorld None 0 0 None [].

Definition at_hour (h : Z) : Z := h * MICROS_PER_HOUR + 17.

(** The records of the specification's worked example: hour 5 twice, with
    totals 10 and 5, and hour 9 once, with total 7. *)
Definition example_table : Table :=
  [mkRecord 0 (at_hour 5) 10 0 0;
   mkRecord 0 (at_hour 5) 2 2 1;
   mkRecord 0 (at_hour 9) 0 7 0].

(** Hours 5 and 9 tie at a summed total of 10; hour 9 comes first. *)
Definition tied_table : Table :=
  [mkRecord 0 (at_hour 9) 10 0 0;
   mkRecord 0 (at_hour 5) 2 2 1;
   mkRecord 0 (at_hour 5) 0 5 0;
   mkRecord 0 (at_hour 3) 1 1 1].

(** A clock whose first reading is the last microsecond of a day. *)
Definition midnight_clock (n : nat) : Z :=
  19675 * MICROS_PER_DAY - 1 + Z.of_nat n.

(** A store holding one full batch of records. *)
Definition full_batch : Table := repeat (mkRecord 0 (at_hour 5) 1 1 1) 24.
Definition batch_world : World := mkWorld (Some full_batch) 0 0 None [].

(** A session that has already run: [last_auto_time] is set. *)
Definition running_world : World :=
  mkWorld (Some example_table) 4 0 (Some 1700000000000000) [].

(** The largest integer a number input of the page delivers. *)
Definition WIDGET_MAX : Z := 9007199254740991.

(** 696 records, 29 full batches, every count within the widget's range:
    342 in hour 5 and 342 in hour 9 with all three counts at the widget's
    maximum, and 12 in hour 7 with a single car each. *)
Definition overflow_table : Table :=
  repeat (mkRecord 0 (at_hour 5) WIDGET_MAX WIDGET_MAX WIDGET_MAX) 342
  ++ repeat (mkRecord 0 (at_hour 7) 1 0 0) 12
  ++ repeat (mkRecord 0 (at_hour 9) WIDGET_MAX WIDGET_MAX WIDGET_MAX) 342.

Definition idle_input : Input := mkInput 1 2 3 false false.
Definition busy_input : Input := mkInput 20 20 11 true false.

(** * Properties *)

(** ** int64 arithmetic *)

Lemma wrap64_range (z : Z) : in_int64 (wrap64 z).
Proof.
  unfold in_int64, wrap64, INT64_MIN, INT64_MAX.
  pose proof (Z.mod_pos_bound (z - -9223372036854775808) 18446744073709551616).
  lia.
Qed.

Lemma wrap64_id (z : Z) : in_int64 z -> wrap64 z = z.
Proof.
  unfold in_int64, wrap64, INT64_MIN, INT64_MAX. intros Hz.
  rewrite Z.mod_small by lia. lia.
Qed.

Lemma wrap64_add_l (a b : Z) : wrap64 (wrap64 a + b) = wrap64 (a + b).
Proof.
  unfold wrap64. f_equal.
  replace ((a - INT64_MIN) mod 18446744073709551616 + INT64_MIN + b - INT64_MIN)
    with ((a - INT64_MIN) mod 18446744073709551616 + b) by lia.
  rewrite Zplus_mod_idemp_l. f_equal. lia.
Qed.

Lemma wrap64_add_r (a b : Z) : wrap64 (a + wrap64 b) = wrap64 (a + b).
Proof. rewrite Z.add_comm, wrap64_add_l. f_equal. lia. Qed.

Lemma wrap64_congr (a x y : Z) :
  wrap64 x = wrap64 y -> wrap64 (a + x) = wrap64 (a + y).
Proof.
  intros Hxy. rewrite <- (wrap64_add_r a x), Hxy, wrap64_add_r. reflexivity.
Qed.

Lemma total64_total (r : TrafficRecord) : total64 r = wrap64 (total_of r).
Proof. unfold total64, total_of. apply wrap64_add_l. Qed.

Lemma total64_range (r : TrafficRecord) : in_int64 (total64 r).
Proof. unfold total64. apply wrap64_range. Qed.

(** ** The aggregator *)

Lemma col_add_total (t : Table) :
  col_add (col_add (map Cars t) (map Bicycles t)) (map Pedestrians t)
  = map total64 t.
Proof.
  unfold col_add.
  induction t as [|r t IH]; simpl; [reflexivity|].
  rewrite IH. reflexivity.
Qed.

(** The call on a frame whose [Time] column has been parsed. *)
Lemma analyze_data_parsed (df : DataFrame) :
  Time_dtype df = datetime64 ->
  analyze_data df =
  (mkFrame (base df) datetime64 (Some (map total64 (base df)))
                                (Some (map hour_of (base df))),
   match idxmax (hourly_of (base df)) with
   | Raise e => Raise e
   | Ok peak_hour =>
       Ok (hourly_of (base df), peak_hour, series_max (hourly_of (base df)))
   end).
Proof.
  intros Hdt. unfold analyze_data, hourly_of; simpl.
  rewrite Hdt, col_add_total, map_map.
  change (fun x => dt_hour (Time x)) with hour_of.
  destruct (idxmax _); reflexivity.
Qed.

(** The call on a frame whose [Time] column is an object column: [Total]
    is assigned, [Hour] is not, and the [.dt] accessor raises. *)
Lemma analyze_data_unparsed (df : DataFrame) :
  Time_dtype df = object ->
  analyze_data df =
  (mkFrame (base df) object (Some (map total64 (base df))) (Hour df),
   Raise (AttributeError "Can only use .dt accessor with datetimelike values")).
Proof.
  intros Hdt. unfold analyze_data; simpl.
  rewrite Hdt, col_add_total. reflexivity.
Qed.

Lemma group_add_sum_at (h t k : Z) (s : Series) :
  wrap64 (sum_at k (group_add h t s))
  = wrap64 (sum_at k s + (if h =? k then t else 0)).
Proof.
  induction s as [|[h' t'] s IH]; simpl.
  - f_equal. lia.
  - destruct (h <? h') eqn:Hlt; simpl.
    + f_equal. lia.
    + destruct (h =? h') eqn:Heq; simpl.
      * apply Z.eqb_eq in Heq; subst h'.
        destruct (h =? k).
        -- rewrite wrap64_add_l. f_equal. lia.
        -- f_equal. lia.
      * rewrite (wrap64_congr _ _ _ IH). f_equal. lia.
Qed.

Lemma group_add_keys (h t k : Z) (s : Series) :
  In k (map fst (group_add h t s)) <-> k = h \/ In k (map fst s).
Proof.
  induction s as [|[h' t'] s IH]; simpl.
  - intuition.
  - destruct (h <? h') eqn:Hlt; simpl.
    + intuition.
    + destruct (h =? h') eqn:Heq; simpl.
      * apply Z.eqb_eq in Heq; subst h'. intuition.
      * rewrite IH. intuition.
Qed.

Lemma group_add_above (h t lo : Z) (s : Series) :
  lo < h -> Forall (fun y => lo < fst y) s ->
  Forall (fun y => lo < fst y) (group_add h t s).
Proof.
  intros Hlo Hs.
  induction s as [|[h' t'] s IH]; simpl.
  - constructor; [exact Hlo | constructor].
  - inversion Hs as [|? ? Hhd Htl]; subst.
    destruct (h <? h'); [constructor; assumption|].
    destruct (h =? h'); constructor; auto.
Qed.

Lemma group_add_increasing (h t : Z) (s : Series) :
  increasing s -> increasing (group_add h t s).
Proof.
  induction s as [|[h' t'] s IH]; simpl.
  - intros _. split; constructor.
  - intros [Hhd Hinc].
    destruct (h <? h') eqn:Hlt.
    + apply Z.ltb_lt in Hlt. simpl. split; [|split; assumption].
      constructor; [exact Hlt|].
      eapply Forall_impl; [|exact Hhd]. simpl. intros; lia.
    + destruct (h =? h') eqn:Heq; simpl.
      * split; assumption.
      * split; [|apply IH; exact Hinc].
        apply Z.ltb_ge in Hlt. apply Z.eqb_neq in Heq.
        apply group_add_above; [lia | exact Hhd].
Qed.

Lemma group_add_in_range (h t : Z) (s : Series) :
  in_int64 t -> in_range s -> in_range (group_add h t s).
Proof.
  unfold in_range. intros Ht Hs.
  induction s as [|[h' t'] s IH]; simpl.
  - constructor; [exact Ht | constructor].
  - inversion Hs as [|? ? Hhd Htl]; subst.
    destruct (h <? h'); [constructor; assumption|].
    destruct (h =? h'); constructor; auto.
    simpl. apply wrap64_range.
Qed.

(** [groupby_sum] over the two derived columns, as a fold over the rows. *)
Lemma groupby_sum_rows (t : Table) (acc : Series) :
  fold_left (fun s kv => group_add (fst kv) (snd kv) s)
            (combine (map hour_of t) (map total64 t)) acc
  = fold_left (fun s r => group_add (hour_of r) (total64 r) s) t acc.
Proof.
  revert acc; induction t as [|r t IH]; intros acc; simpl; [reflexivity|].
  apply IH.
Qed.

Lemma fold_group_increasing (t : Table) (acc : Series) :
  increasing acc ->
  increasing (fold_left (fun s r => group_add (hour_of r) (total64 r) s) t acc).
Proof.
  revert acc; induction t as [|r t IH]; intros acc Hacc; simpl; [exact Hacc|].
  apply IH, group_add_increasing, Hacc.
Qed.

Lemma fold_group_in_range (t : Table) (acc : Series) :
  in_range acc ->
  in_range (fold_left (fun s r => group_add (hour_of r) (total64 r) s) t acc).
Proof.
  revert acc; induction t as [|r t IH]; intros acc Hacc; simpl; [exact Hacc|].
  apply IH, group_add_in_range; [apply total64_range | exact Hacc].
Qed.

Lemma fold_group_sum_at (t : Table) (acc : Series) (k : Z) :
  wrap64 (sum_at k (fold_left (fun s r => group_add (hour_of r) (total64 r) s)
                              t acc))
  = wrap64 (sum_at k acc + hour_total t k).
Proof.
  revert acc; induction t as [|r t IH]; intros acc; simpl.
  - unfold hour_total; simpl. f_equal. lia.
  - rewrite IH.
    rewrite <- (wrap64_add_l (sum_at k (group_add _ _ acc))).
    rewrite group_add_sum_at, wrap64_add_l.
    unfold hour_total; simpl.
    destruct (hour_of r =? k); simpl.
    + rewrite total64_total.
      replace (sum_at k acc + wrap64 (total_of r)
               + fold_right Z.add 0
                   (map total_of (filter (fun r0 => hour_of r0 =? k) t)))
        with (wrap64 (total_of r)
              + (sum_at k acc
                 + fold_right Z.add 0
                     (map total_of (filter (fun r0 => hour_of r0 =? k) t))))
        by lia.
      rewrite wrap64_add_l. f_equal. lia.
    + f_equal. lia.
Qed.

Lemma fold_group_keys (t : Table) (acc : Series) (k : Z) :
  In k (map fst (fold_left (fun s r => group_add (hour_of r) (total64 r) s) t acc))
  <-> In k (map fst acc) \/ In k (hours_present t).
Proof.
  revert acc; induction t as [|r t IH]; intros acc; simpl.
  - intuition.
  - rewrite IH, group_add_keys. intuition.
Qed.

Lemma hourly_of_increasing (t : Table) : increasing (hourly_of t).
Proof.
  unfold hourly_of, groupby_sum. rewrite groupby_sum_rows.
  apply fold_group_increasing. exact I.
Qed.

Lemma hourly_of_in_range (t : Table) : in_range (hourly_of t).
Proof.
  unfold hourly_of, groupby_sum. rewrite groupby_sum_rows.
  apply fold_group_in_range. constructor.
Qed.

Lemma hourly_of_keys (t : Table) (k : Z) :
  In k (map fst (hourly_of t)) <-> In k (hours_present t).
Proof.
  unfold hourly_of, groupby_sum. rewrite groupby_sum_rows, fold_group_keys.
  simpl. intuition.
Qed.

Lemma sum_at_absent (h : Z) (s : Series) :
  Forall (fun y => fst y <> h) s -> sum_at h s = 0.
Proof.
  induction 1 as [|[h' t'] s Hne _ IH]; simpl; [reflexivity|].
  simpl in Hne. apply Z.eqb_neq in Hne. rewrite Hne, IH. reflexivity.
Qed.

(** With an increasing index, an entry is the whole group of its key. *)
Lemma sum_at_entry (h m : Z) (s : Series) :
  increasing s -> In (h, m) s -> sum_at h s = m.
Proof.
  induction s as [|[h' t'] s IH]; simpl; [tauto|].
  intros [Hhd Hinc] [Heq | Hin].
  - inversion Heq; subst. rewrite Z.eqb_refl, sum_at_absent; [lia|].
    eapply Forall_impl; [|exact Hhd]. simpl. intros; lia.
  - rewrite Forall_forall in Hhd. specialize (Hhd _ Hin). simpl in Hhd.
    assert (Hne : (h' =? h) = false) by (apply Z.eqb_neq; lia).
    rewrite Hne, IH by assumption. reflexivity.
Qed.

Lemma sum_at_in_range (k : Z) (s : Series) :
  increasing s -> in_range s -> in_int64 (sum_at k s).
Proof.
  unfold in_range.
  induction s as [|[h v] s IH]; simpl.
  - intros _ _. unfold in_int64, INT64_MIN, INT64_MAX. lia.
  - intros [Hhd Hinc] Hr. inversion Hr as [|? ? Hv Hrs]; subst.
    destruct (h =? k) eqn:Hk.
    + apply Z.eqb_eq in Hk; subst k.
      rewrite sum_at_absent; [rewrite Z.add_0_r; exact Hv|].
      eapply Forall_impl; [|exact Hhd]. simpl. intros; lia.
    + simpl. apply IH; assumption.
Qed.

(** The value the hourly Series holds under an hour is the summed total of
    that hour, reduced to int64. *)
Lemma hourly_of_sum_at (t : Table) (k : Z) :
  sum_at k (hourly_of t) = wrap64 (hour_total t k).
Proof.
  rewrite <- (wrap64_id (sum_at k (hourly_of t)))
    by (apply sum_at_in_range;
        [apply hourly_of_increasing | apply hourly_of_in_range]).
  unfold hourly_of, groupby_sum. rewrite groupby_sum_rows, fold_group_sum_at.
  reflexivity.
Qed.

(** An entry of the hourly Series is the int64 sum of an hour present. *)
Lemma hourly_of_entries (t : Table) (k v : Z) :
  In (k, v) (hourly_of t)
  <-> In k (hours_present t) /\ v = wrap64 (hour_total t k).
Proof.
  pose proof (hourly_of_increasing t) as Hinc.
  split.
  - intros Hin. split.
    + apply hourly_of_keys. apply (in_map fst) in Hin. exact Hin.
    + rewrite <- hourly_of_sum_at. symmetry.
      apply sum_at_entry; assumption.
  - intros [Hk Hv]. apply hourly_of_keys in Hk.
    apply in_map_iff in Hk. destruct Hk as ([k' v'] & Hfst & Hin).
    simpl in Hfst; subst k'.
    rewrite Hv, <- hourly_of_sum_at.
    rewrite (sum_at_entry k v' _ Hinc Hin). exact Hin.
Qed.

(** The scan keeps the first entry of largest value; on an increasing index
    that is the lowest key among the entries of largest value. *)
Lemma first_max_spec (s : Series) :
  forall best,
    increasing (best :: s) ->
    In (first_max best s) (best :: s)
    /\ (forall y, In y (best :: s) -> snd y <= snd (first_max best s))
    /\ (forall y, In y (best :: s) -> snd y = snd (first_max best s) ->
                  fst (first_max best s) <= fst y).
Proof.
  induction s as [|x s IH]; intros best Hinc.
  - simpl. split; [left; reflexivity|].
    split; intros y [<-|[]]; lia.
  - cbn [first_max].
    destruct Hinc as [Hhd [Hx Hs]].
    inversion Hhd as [|? ? Hbx Hbs]; subst.
    destruct (snd best <? snd x) eqn:Hlt.
    + apply Z.ltb_lt in Hlt.
      destruct (IH x (conj Hx Hs)) as (Hin & Hmax & Htie).
      split; [right; exact Hin|].
      assert (Hxr := Hmax x (or_introl eq_refl)).
      split.
      * intros y [<-|Hy]; [lia | apply Hmax, Hy].
      * intros y [<-|Hy] Heq; [lia | apply Htie; assumption].
    + apply Z.ltb_ge in Hlt.
      destruct (IH best (conj Hbs Hs)) as (Hin & Hmax & Htie).
      assert (Hbr := Hmax best (or_introl eq_refl)).
      split; [destruct Hin as [Hin|Hin]; [left; exact Hin | right; right; exact Hin]|].
      split.
      * intros y [<-|[<-|Hy]]; [exact Hbr | lia | apply Hmax; right; exact Hy].
      * intros y [<-|[<-|Hy]] Heq.
        -- apply Htie; [left; reflexivity | exact Heq].
        -- assert (Hb : fst (first_max best s) <= fst best)
             by (apply Htie; [left; reflexivity | lia]).
           lia.
        -- apply Htie; [right; exact Hy | exact Heq].
Qed.

Lemma series_max_first_max (s : Series) :
  forall best,
    fold_left Z.max (map snd s) (snd best) = snd (first_max best s).
Proof.
  induction s as [|x s IH]; intros best; simpl; [reflexivity|].
  destruct (snd best <? snd x) eqn:Hlt.
  - apply Z.ltb_lt in Hlt. rewrite Z.max_r by lia. apply IH.
  - apply Z.ltb_ge in Hlt. rewrite Z.max_l by lia. apply IH.
Qed.

(** On a parsed frame with at least one row the aggregation does not
    raise, and its peak is the first largest entry of the hourly Series. *)
Lemma analyze_data_nonempty (df : DataFrame) :
  base df <> [] ->
  Time_dtype df = datetime64 ->
  exists x s,
    hourly_of (base df) = x :: s
    /\ snd (analyze_data df)
       = Ok (x :: s, fst (first_max x s), Some (snd (first_max x s))).
Proof.
  intros Hne Hdt. rewrite (analyze_data_parsed df Hdt). simpl.
  destruct (hourly_of (base df)) as [|x s] eqn:Hg.
  - exfalso. destruct (base df) as [|r t]; [congruence|].
    assert (Hk : In (hour_of r) (map fst (hourly_of (r :: t))))
      by (apply hourly_of_keys; left; reflexivity).
    rewrite Hg in Hk. exact Hk.
  - exists x, s. split; [reflexivity|].
    simpl. rewrite series_max_first_max. reflexivity.
Qed.

(** What a successful call returns, and on what. *)
Lemma analyze_data_ok (df : DataFrame) hourly peak_hour peak_traffic :
  snd (analyze_data df) = Ok (hourly, peak_hour, peak_traffic) ->
  hourly = hourly_of (base df)
  /\ base df <> []
  /\ Time_dtype df = datetime64.
Proof.
  destruct (Time_dtype df) eqn:Hdt.
  - rewrite (analyze_data_parsed df Hdt). simpl.
    destruct (hourly_of (base df)) as [|x s] eqn:Hg; simpl; [discriminate|].
    intros Heq. inversion Heq; subst. split; [reflexivity|].
    split; [|reflexivity].
    intros He. rewrite He in Hg. discriminate.
  - rewrite (analyze_data_unparsed df Hdt). discriminate.
Qed.

(** The peak of a parsed frame with rows, in terms of the int64 sums. *)
Lemma analyze_data_peak (df : DataFrame) :
  base df <> [] ->
  Time_dtype df = datetime64 ->
  exists hourly peak_hour peak_traffic,
    snd (analyze_data df) = Ok (hourly, peak_hour, Some peak_traffic)
    /\ In peak_hour (hours_present (base df))
    /\ peak_traffic = wrap64 (hour_total (base df) peak_hour)
    /\ (forall h, In h (hours_present (base df)) ->
                  wrap64 (hour_total (base df) h) <= peak_traffic)
    /\ (forall h, In h (hours_present (base df)) ->
                  wrap64 (hour_total (base df) h) = peak_traffic ->
                  peak_hour <= h).
Proof.
  intros Hne Hdt.
  destruct (analyze_data_nonempty df Hne Hdt) as (x & s & Hg & Hres).
  pose proof (hourly_of_increasing (base df)) as Hinc.
  rewrite Hg in Hinc.
  destruct (first_max_spec s x Hinc) as (Hin & Hmax & Htie).
  set (pk := first_max x s) in *.
  assert (Hentry : forall h, In h (hours_present (base df)) ->
                             In (h, wrap64 (hour_total (base df) h)) (x :: s)).
  { intros h Hh. rewrite <- Hg. apply hourly_of_entries.
    split; [exact Hh | reflexivity]. }
  exists (x :: s), (fst pk), (snd pk).
  split; [exact Hres|].
  assert (Hpk : In (fst pk) (hours_present (base df))
                /\ snd pk = wrap64 (hour_total (base df) (fst pk))).
  { apply hourly_of_entries. rewrite Hg. destruct pk; exact Hin. }
  split; [apply Hpk|]. split; [apply Hpk|].
  split.
  - intros h Hh. apply (Hmax _ (Hentry h Hh)).
  - intros h Hh Heq. apply (Htie _ (Hentry h Hh)). exact Heq.
Qed.

(** C2: on a non-empty table of int64 counts [analyze_data] returns as peak
    hour the lowest hour among those whose summed total, reduced to int64 as
    the column arithmetic computes it, is the largest. Whenever no hour's
    summed total leaves the int64 range, these are the summed totals
    themselves: the peak hour is then the lowest of the hours that share
    the maximum summed total. *)
Theorem analyze_data_peak_lowest_tied_hour (df : DataFrame) :
  base df <> [] ->
  Time_dtype df = datetime64 ->
  int64_table (base df) ->
  exists hourly peak_hour peak_traffic,
    snd (analyze_data df) = Ok (hourly, peak_hour, Some peak_traffic)
    /\ In peak_hour (hours_present (base df))
    /\ peak_traffic = wrap64 (hour_total (base df) peak_hour)
    /\ (forall h, In h (hours_present (base df)) ->
                  wrap64 (hour_total (base df) h) <= peak_traffic)
    /\ (forall h, In h (hours_present (base df)) ->
                  wrap64 (hour_total (base df) h) = peak_traffic ->
                  peak_hour <= h)
    /\ ((forall h, In h (hours_present (base df)) ->
                   in_int64 (hour_total (base df) h)) ->
        peak_traffic = hour_total (base df) peak_hour
        /\ (forall h, In h (hours_present (base df)) ->
                      hour_total (base df) h <= peak_traffic)
        /\ (forall h, In h (hours_present (base df)) ->
                      hour_total (base df) h = peak_traffic ->
                      peak_hour <= h)).
Proof.
  intros Hne Hdt _.
  destruct (analyze_data_peak df Hne Hdt)
    as (hourly & ph & pt & Hres & Hin & Hpt & Hmax & Htie).
  exists hourly, ph, pt.
  split; [exact Hres|]. split; [exact Hin|]. split; [exact Hpt|].
  split; [exact Hmax|]. split; [exact Htie|].
  intros Hfit.
  assert (Hw : forall h, In h (hours_present (base df)) ->
                         wrap64 (hour_total (base df) h) = hour_total (base df) h)
    by (intros h Hh; apply wrap64_id, Hfit, Hh).
  split; [rewrite Hpt; apply Hw, Hin|].
  split.
  - intros h Hh. rewrite <- (Hw h Hh). apply Hmax, Hh.
  - intros h Hh Heq. apply (Htie h Hh). rewrite (Hw h Hh). exact Heq.
Qed.

(** C9: [analyze_data] is idempotent. Called a second time on the frame
    the first call left behind, it returns the same hourly Series, peak hour
    and peak total (or raises the same error), and leaves the frame as the
    first call left it. *)
Theorem analyze_data_idempotent (df : DataFrame) :
  snd (analyze_data (fst (analyze_data df))) = snd (analyze_data df)
  /\ fst (analyze_data (fst (analyze_data df))) = fst (analyze_data df).
Proof.
  destruct (Time_dtype df) eqn:Hdt.
  - rewrite (analyze_data_parsed df Hdt). cbn [fst snd].
    rewrite analyze_data_parsed by reflexivity. split; reflexivity.
  - rewrite (analyze_data_unparsed df Hdt). cbn [fst snd].
    rewrite analyze_data_unparsed by reflexivity. split; reflexivity.
Qed.

(** The hour [h] of a timestamp, stated without [dt_hour]: the timestamp
    falls in the [h]-th hour of some day. *)
Lemma dt_hour_spec (t : Z) :
  0 <= dt_hour t <= 23
  /\ exists day rest,
       t = day * MICROS_PER_DAY + dt_hour t * MICROS_PER_HOUR + rest
       /\ 0 <= rest < MICROS_PER_HOUR.
Proof.
  unfold dt_hour, MICROS_PER_DAY, MICROS_PER_HOUR, MICROS_PER_SECOND.
  pose proof (Z.mod_pos_bound (t / (3600 * 1000000)) 24).
  split; [lia|].
  exists ((t / (3600 * 1000000)) / 24), (t mod (3600 * 1000000)).
  pose proof (Z.mod_pos_bound t (3600 * 1000000)).
  pose proof (Z.div_mod t (3600 * 1000000)).
  pose proof (Z.div_mod (t / (3600 * 1000000)) 24).
  lia.
Qed.

(** C10: [analyze_data] mutates its argument. Whenever it returns, the
    frame it leaves has the same rows in the same order with the five base
    columns and the dtype of [Time] untouched, a [Total] column holding, row
    by row, the int64 sum Cars + Bicycles + Pedestrians (the sum itself when
    it fits int64), and an [Hour] column holding, row by row, the hour of
    the day (0..23) in which the row's Time falls; a five-column table has
    neither column before the call. *)
Theorem analyze_data_adds_columns (df : DataFrame) res :
  int64_table (base df) ->
  snd (analyze_data df) = Ok res ->
  base (fst (analyze_data df)) = base df
  /\ Time_dtype (fst (analyze_data df)) = Time_dtype df
  /\ (exists total hour,
        Total (fst (analyze_data df)) = Some total
        /\ Hour (fst (analyze_data df)) = Some hour
        /\ Forall2 (fun r x =>
                      x = wrap64 (Cars r + Bicycles r + Pedestrians r)
                      /\ (in_int64 (Cars r + Bicycles r + Pedestrians r) ->
                          x = Cars r + Bicycles r + Pedestrians r))
                   (base df) total
        /\ Forall2 (fun r h =>
                      0 <= h <= 23
                      /\ exists day rest,
                           Time r = day * MICROS_PER_DAY + h * MICROS_PER_HOUR
                                    + rest
                           /\ 0 <= rest < MICROS_PER_HOUR)
                   (base df) hour)
  /\ (forall t : Table, Total (frame_of t) = None /\ Hour (frame_of t) = None).
Proof.
  intros _ Hok. destruct res as [[hourly ph] pt].
  destruct (analyze_data_ok df _ _ _ Hok) as (_ & _ & Hdt).
  rewrite (analyze_data_parsed df Hdt). simpl.
  split; [reflexivity|]. split; [symmetry; exact Hdt|].
  split; [|intros t; split; reflexivity].
  exists (map total64 (base df)), (map hour_of (base df)).
  split; [reflexivity|]. split; [reflexivity|].
  split.
  - induction (base df) as [|r t IH]; simpl; constructor; [|exact IH].
    rewrite total64_total. unfold total_of.
    split; [reflexivity | intros Hfit; apply wrap64_id, Hfit].
  - induction (base df) as [|r t IH]; simpl; constructor; [|exact IH].
    unfold hour_of. apply dt_hour_spec.
Qed.

(** ** The record store *)

Lemma load_data_present (w : World) (t : Table) :
  csv_file w = Some t -> load_data w = (Ok (frame_of t), w).
Proof.
  intros Hf. unfold load_data, try_except_FileNotFoundError, bind, read_csv.
  rewrite Hf. reflexivity.
Qed.

Lemma load_data_absent (w : World) :
  csv_file w = None -> load_data w = (Ok fresh_frame, set_csv (Some []) w).
Proof.
  intros Hf. unfold load_data, try_except_FileNotFoundError, bind, read_csv.
  rewrite Hf. reflexivity.
Qed.

Lemma load_data_stored (w : World) :
  load_data w = (Ok (loaded w), set_csv (Some (stored w)) w).
Proof.
  unfold stored, loaded. destruct (csv_file w) as [t|] eqn:Hf.
  - rewrite (load_data_present w t Hf). unfold set_csv. rewrite <- Hf.
    destruct w; reflexivity.
  - apply load_data_absent, Hf.
Qed.

Lemma base_loaded (w : World) : base (loaded w) = stored w.
Proof. unfold loaded, stored. destruct (csv_file w); reflexivity. Qed.

(** A load that returns rows returns the parsed frame of the stored
    table. *)
Lemma loaded_rows (w : World) :
  stored w <> [] -> loaded w = frame_of (stored w).
Proof.
  unfold loaded, stored. destruct (csv_file w); [reflexivity|].
  intros H. contradiction H. reflexivity.
Qed.

Lemma add_entry_run (clock : nat -> Z) (c b p : Z) (w : World) :
  add_entry clock c b p w
  = (Ok tt,
     mkWorld (Some (stored w ++ [mkRecord (dt_date (clock (ticks w)))
                                          (clock (S (ticks w))) c b p]))
             (S (S (ticks w))) (draws w) (last_auto_time w) (page w)).
Proof.
  unfold add_entry, bind. rewrite load_data_stored.
  cbn -[stored loaded]. rewrite base_loaded. reflexivity.
Qed.

(** C1: for valid counts (non-negative and within the int64 range of the
    count columns), on any store of int64 counts and under a clock that
    does not run backwards, appending and loading again returns what a load
    returned before the call followed by exactly one new last record; that
    record carries the three counts given, and its timestamp lies between a
    clock reading taken before the call and one taken after it. *)
Theorem add_entry_then_load_data (clock : nat -> Z) (c b p : Z) (w : World) :
  monotone clock ->
  valid_count c -> valid_count b -> valid_count p ->
  int64_table (stored w) ->
  exists t_in before t_out r w',
    append_then_load clock c b p w
    = (Ok (t_in, before, t_out, before ++ [r]), w')
    /\ (exists df, fst (load_data w) = Ok df /\ base df = before)
    /\ Cars r = c /\ Bicycles r = b /\ Pedestrians r = p
    /\ valid_record r
    /\ int64_table (before ++ [r])
    /\ t_in <= Time r <= t_out.
Proof.
  intros Hmono Hc Hb Hp Hstore.
  set (n := ticks w).
  exists (clock n), (stored w), (clock (3 + n)%nat),
         (mkRecord (dt_date (clock (1 + n)%nat)) (clock (2 + n)%nat) c b p).
  eexists.
  split.
  { unfold append_then_load, bind at 1, datetime_now at 1.
    unfold bind at 1. rewrite load_data_stored.
    unfold bind at 1. rewrite add_entry_run.
    unfold bind at 1, datetime_now at 1.
    unfold bind at 1. rewrite load_data_stored.
    unfold ret. rewrite !base_loaded.
    unfold stored, set_csv, set_ticks. simpl. reflexivity. }
  split; [exists (loaded w); rewrite load_data_stored;
          split; [reflexivity | apply base_loaded]|].
  unfold valid_count, INT64_MAX in *.
  split; [reflexivity|]. split; [reflexivity|]. split; [reflexivity|].
  split; [unfold valid_record; simpl; lia|].
  split.
  - apply Forall_app. split; [exact Hstore|].
    constructor; [|constructor].
    unfold int64_record, in_int64, INT64_MIN, INT64_MAX. simpl. lia.
  - simpl. split; apply Hmono; lia.
Qed.

(** After any clear the file is absent, and the clear did not raise. *)
Lemma clear_data_removes (w : World) :
  exists w', clear_data w = (Ok tt, w') /\ csv_file w' = None.
Proof.
  unfold clear_data, bind, path_exists, os_remove, st.
  destruct (csv_file w) as [t|] eqn:Hf.
  - rewrite Hf. eexists. split; reflexivity.
  - eexists. split; [reflexivity | exact Hf].
Qed.

(** C5: whatever the store holds, clearing it and then loading returns the
    empty table: the load does not raise and the frame it returns, the
    fresh frame of the missing-file path, has no rows. *)
Theorem clear_data_then_load_data (w : World) :
  exists df w',
    (clear_data ;; load_data)%py w = (Ok df, w')
    /\ base df = []
    /\ df = fresh_frame.
Proof.
  destruct (clear_data_removes w) as (w1 & Hclear & Hf).
  exists fresh_frame, (set_csv (Some []) w1).
  split; [|split; reflexivity].
  unfold bind. rewrite Hclear. apply load_data_absent, Hf.
Qed.

(** C6: when no file exists, loading does not raise: it returns the empty
    table, as the fresh frame without rows, and leaves behind a file
    holding the empty table, the rest of the state untouched. *)
Theorem load_data_missing_store (w : World) :
  csv_file w = None ->
  exists df w',
    load_data w = (Ok df, w')
    /\ base df = []
    /\ df = fresh_frame
    /\ csv_file w' = Some []
    /\ w' = set_csv (Some []) w.
Proof.
  intros Hf. exists fresh_frame, (set_csv (Some []) w).
  rewrite (load_data_absent w Hf). repeat split.
Qed.

(** C7: clearing when no file exists does not raise and changes nothing
    but the page, where it reports that there was no file to delete; and
    after any clear the file is absent, so a repeated clear is this no-op. *)
Theorem clear_data_idempotent (w : World) :
  csv_file w = None ->
  clear_data w
  = (Ok tt, set_page (page w ++ [st_info "No data file found to delete."]) w)
  /\ csv_file (snd (clear_data w)) = None
  /\ (forall w0, exists w1, clear_data w0 = (Ok tt, w1) /\ csv_file w1 = None).
Proof.
  intros Hf.
  assert (Hrun : clear_data w
    = (Ok tt, set_page (page w ++ [st_info "No data file found to delete."]) w)).
  { unfold clear_data, bind, path_exists. rewrite Hf. reflexivity. }
  split; [exact Hrun|].
  split; [rewrite Hrun; exact Hf|].
  exact clear_data_removes.
Qed.

(** ** The page script *)

Lemma grows_refl (w : World) : grows false w w.
Proof.
  split; [lia|]. exists []. rewrite app_nil_r. split; reflexivity.
Qed.

Lemma grows_trans (e1 e2 : bool) (w1 w2 w3 : World) :
  grows e1 w1 w2 -> grows e2 w2 w3 -> grows (e1 || e2) w1 w3.
Proof.
  intros [Ht1 (q1 & Hp1 & He1)] [Ht2 (q2 & Hp2 & He2)].
  split; [lia|]. exists (q1 ++ q2).
  rewrite Hp2, Hp1, app_assoc. split; [reflexivity|].
  unfold alert_fired in *. rewrite existsb_app, He1, He2. reflexivity.
Qed.

Lemma runs_ret {A} (a : A) : runs (ret a) false.
Proof. intros w. exists a, w. split; [reflexivity | apply grows_refl]. Qed.

Lemma runs_bind {A B} (c : M A) (k : A -> M B) (e1 e2 : bool) :
  runs c e1 -> (forall a, runs (k a) e2) -> runs (bind c k) (e1 || e2).
Proof.
  intros Hc Hk w.
  destruct (Hc w) as (a & w1 & Hrun1 & Hg1).
  destruct (Hk a w1) as (b & w2 & Hrun2 & Hg2).
  exists b, w2. unfold bind. rewrite Hrun1. split; [exact Hrun2|].
  eapply grows_trans; eassumption.
Qed.

Lemma runs_seq {A B} (c : M A) (k : A -> M B) :
  runs c false -> (forall a, runs (k a) false) -> runs (bind c k) false.
Proof. intros Hc Hk. exact (runs_bind c k false false Hc Hk). Qed.

Lemma runs_when (b : bool) (c : M unit) :
  runs c false -> runs (when b c) false.
Proof. intros Hc. destruct b; [exact Hc | apply runs_ret]. Qed.

Lemma runs_st (e : element) : runs (st e) (is_error e).
Proof.
  intros w. eexists tt, _. split; [reflexivity|].
  split; [simpl; lia|]. exists [e]. split; [reflexivity|].
  simpl. apply orb_false_r.
Qed.

Lemma runs_st_quiet (e : element) : is_error e = false -> runs (st e) false.
Proof. intros He. rewrite <- He. apply runs_st. Qed.

Lemma runs_datetime_now (clock : nat -> Z) : runs (datetime_now clock) false.
Proof.
  intros w. eexists _, _. split; [reflexivity|].
  split; [simpl; lia|]. exists []. simpl. rewrite app_nil_r. split; reflexivity.
Qed.

Lemma runs_randint (entropy : nat -> Z) (a b : Z) :
  runs (randint entropy a b) false.
Proof.
  intros w. eexists _, _. split; [reflexivity|].
  split; [simpl; lia|]. exists []. simpl. rewrite app_nil_r. split; reflexivity.
Qed.

Lemma runs_load_data : runs load_data false.
Proof.
  intros w. eexists _, _. split; [apply load_data_stored|].
  split; [simpl; lia|]. exists []. simpl. rewrite app_nil_r. split; reflexivity.
Qed.

Lemma runs_add_entry (clock : nat -> Z) (c b p : Z) :
  runs (add_entry clock c b p) false.
Proof.
  intros w. eexists _, _. split; [apply add_entry_run|].
  split; [simpl; lia|]. exists []. simpl. rewrite app_nil_r. split; reflexivity.
Qed.

Lemma runs_clear_data : runs clear_data false.
Proof.
  intros w. unfold clear_data, bind, path_exists, os_remove, st.
  destruct (csv_file w) as [t|] eqn:Hf; [rewrite Hf|];
    (eexists _, _; split; [reflexivity|]);
    (split; [simpl; lia|]); eexists [_]; simpl; split; reflexivity.
Qed.

Lemma runs_get_last_auto_time : runs get_last_auto_time false.
Proof. intros w. eexists _, _. split; [reflexivity | apply grows_refl]. Qed.

Lemma runs_put_last_auto_time (t : Z) : runs (put_last_auto_time t) false.
Proof.
  intros w. eexists _, _. split; [reflexivity|].
  split; [simpl; lia|]. exists []. simpl. rewrite app_nil_r. split; reflexivity.
Qed.

Create HintDb script discriminated.
#[local] Hint Resolve runs_ret runs_when runs_datetime_now runs_randint
  runs_load_data runs_add_entry runs_clear_data runs_get_last_auto_time
  runs_put_last_auto_time : script.

(** Splits a sequence of quiet commands into its steps. *)
Ltac quiet :=
  repeat first
    [ solve [auto with script]
    | apply runs_st_quiet; reflexivity
    | apply runs_when
    | apply runs_seq; [|intros ?] ].

Lemma runs_auto_generate_data (clock entropy : nat -> Z) :
  runs (auto_generate_data clock entropy) false.
Proof. unfold auto_generate_data. quiet. Qed.

#[local] Hint Resolve runs_auto_generate_data : script.

(** The manual section raises the alert exactly above the threshold. *)
Lemma runs_manual_section (clock : nat -> Z) (i : Input) :
  runs (manual_section clock i)
       (HIGH_TRAFFIC_THRESHOLD <? in_cars i + in_bicycles i + in_pedestrians i).
Proof.
  unfold manual_section.
  set (e := HIGH_TRAFFIC_THRESHOLD <? _).
  do 5 (apply (runs_bind _ _ false e); [apply runs_st_quiet; reflexivity|intros ?]).
  replace e with (e || false)%bool by apply orb_false_r.
  apply runs_bind; [|intros ?; quiet].
  unfold when. destruct e; [apply (runs_st (st_error _)) | apply runs_ret].
Qed.

Lemma keeps_ret {A} (a : A) : keeps_session (ret a).
Proof. intros w. reflexivity. Qed.

Lemma keeps_bind {A B} (c : M A) (k : A -> M B) :
  keeps_session c -> (forall a, keeps_session (k a)) ->
  keeps_session (bind c k).
Proof.
  intros Hc Hk w. unfold bind. specialize (Hc w).
  destruct (c w) as [[a|e] w1]; simpl in *; [rewrite Hk|]; exact Hc.
Qed.

Lemma keeps_when (b : bool) (c : M unit) :
  keeps_session c -> keeps_session (when b c).
Proof. intros Hc. destruct b; [exact Hc | apply keeps_ret]. Qed.

Lemma keeps_lift {A} (r : result A) : keeps_session (lift r).
Proof. intros w. reflexivity. Qed.

Lemma keeps_st (e : element) : keeps_session (st e).
Proof. intros w. reflexivity. Qed.

Lemma keeps_datetime_now (clock : nat -> Z) : keeps_session (datetime_now clock).
Proof. intros w. reflexivity. Qed.

Lemma keeps_randint (entropy : nat -> Z) (a b : Z) :
  keeps_session (randint entropy a b).
Proof. intros w. reflexivity. Qed.

Lemma keeps_load_data : keeps_session load_data.
Proof. intros w. rewrite load_data_stored. reflexivity. Qed.

Lemma keeps_add_entry (clock : nat -> Z) (c b p : Z) :
  keeps_session (add_entry clock c b p).
Proof. intros w. rewrite add_entry_run. reflexivity. Qed.

Lemma keeps_clear_data : keeps_session clear_data.
Proof.
  intros w. unfold clear_data, bind, path_exists, os_remove, st.
  destruct (csv_file w) as [t|] eqn:Hf; [rewrite Hf|]; reflexivity.
Qed.

#[local] Hint Resolve keeps_ret keeps_lift keeps_st keeps_datetime_now
  keeps_randint keeps_load_data keeps_add_entry keeps_clear_data : script.

(** Splits a sequence of commands that leave the session state alone. *)
Ltac framed :=
  repeat first
    [ solve [auto with script]
    | apply keeps_when
    | apply keeps_bind; [|intros ?] ].

Lemma keeps_auto_generate_data (clock entropy : nat -> Z) :
  keeps_session (auto_generate_data clock entropy).
Proof. unfold auto_generate_data. framed. Qed.

Lemma keeps_manual_section (clock : nat -> Z) (i : Input) :
  keeps_session (manual_section clock i).
Proof. unfold manual_section. framed. Qed.

Lemma keeps_display_section : keeps_session display_section.
Proof.
  unfold display_section. framed.
  match goal with df : DataFrame |- _ => destruct (base df) as [|r t] end;
    [framed|].
  framed.
  destruct (_ && _)%bool; [|framed].
  framed.
  match goal with x : (Series * Z * option Z)%type |- _ =>
    destruct x as [[? ?] ?] end.
  framed.
Qed.

(** What the display section puts on the page, by the state of the store:
    nothing stored, a partial batch, or a positive number of full batches. *)
Lemma display_section_view (w : World) :
  exists an w' view,
    display_section w = (Ok an, w')
    /\ page w' = page w ++ st_header "Recorded Traffic Data" :: view
    /\ stored w' = stored w
    /\ ticks w' = ticks w
    /\ ((stored w = [] /\ an = None
         /\ view = [st_info "No data recorded yet."])
        \/ (stored w <> [] /\ batch_complete (stored w) = false /\ an = None
            /\ view = [st_write (stored w);
                       st_pyplot_line (plot_columns (sort_values (stored w)))])
        \/ (stored w <> [] /\ batch_complete (stored w) = true
            /\ an = Some (stored w)
            /\ exists hourly peak_hour peak_traffic,
                 snd (analyze_data (frame_of (stored w)))
                 = Ok (hourly, peak_hour, Some peak_traffic)
                 /\ view = [st_write (stored w);
                            st_pyplot_line
                              (plot_columns (sort_values (stored w)));
                            st_header "Traffic Analysis";
                            st_subheader ("Peak traffic hour: "
                                          ++ string_of_Z peak_hour
                                          ++ ":00 - "
                                          ++ string_of_Z peak_traffic
                                          ++ " total vehicles")%string;
                            st_pyplot_bar hourly])).
Proof.
  unfold display_section, bind at 1. rewrite load_data_stored.
  unfold bind at 1, st at 1. cbv beta iota. rewrite !base_loaded.
  destruct (stored w) as [|r t] eqn:Hs.
  - eexists _, _, _. split; [reflexivity|]. simpl.
    rewrite <- app_assoc. split; [reflexivity|].
    split; [reflexivity|]. split; [reflexivity|]. left. repeat split.
  - assert (Hl : loaded w = frame_of (r :: t))
      by (rewrite <- Hs; apply loaded_rows; rewrite Hs; discriminate).
    rewrite Hl.
    unfold bind at 1, st at 1. unfold bind at 1, st at 1.
    fold (batch_complete (r :: t)).
    destruct (batch_complete (r :: t)) eqn:Hb.
    + destruct (analyze_data_nonempty (frame_of (r :: t)))
        as (x & s & _ & Hres); [discriminate|reflexivity|].
      rewrite Hres. eexists _, _, _. split; [reflexivity|]. simpl.
      rewrite <- !app_assoc. split; [reflexivity|].
      split; [reflexivity|]. split; [reflexivity|]. right; right.
      split; [discriminate|]. split; [reflexivity|]. split; [reflexivity|].
      eexists _, _, _. split; reflexivity.
    + eexists _, _, _. split; [reflexivity|]. simpl.
      rewrite <- !app_assoc. split; [reflexivity|].
      split; [reflexivity|]. split; [reflexivity|]. right; left.
      split; [discriminate|]. repeat split.
Qed.

(** The display section does not raise, and calls [analyze_data] only on a
    table whose length is a positive multiple of the batch size. *)
Lemma display_section_run (w : World) :
  exists a w',
    display_section w = (Ok a, w')
    /\ grows false w w'
    /\ (forall t, a = Some t ->
          (RECORDS_PER_ANALYSIS <= len t)%nat
          /\ (len t mod RECORDS_PER_ANALYSIS)%nat = 0%nat).
Proof.
  destruct (display_section_view w)
    as (an & w' & view & Hrun & Hp & _ & Ht & Hcases).
  exists an, w'. split; [exact Hrun|].
  split.
  - split; [rewrite Ht; lia|].
    exists (st_header "Recorded Traffic Data" :: view).
    split; [exact Hp|].
    destruct Hcases as [(_ & _ & ->)|[(_ & _ & _ & ->)|(_ & _ & _ & h & ph & pt & _ & ->)]];
      reflexivity.
  - intros t Ha.
    destruct Hcases as [(_ & -> & _)|[(_ & _ & -> & _)|(_ & Hb & -> & _)]];
      try discriminate.
    inversion Ha; subst t. unfold batch_complete in Hb.
    apply andb_prop in Hb. destruct Hb as [Hle Hmod].
    apply Nat.leb_le in Hle. apply Nat.eqb_eq in Hmod. split; assumption.
Qed.

(** The two arms of the check, from a state whose [last_auto_time] is set. *)
Lemma auto_check_arms (clock entropy : nat -> Z) (now l : Z) (fired : bool)
      (w : World) :
  last_auto_time w = Some l ->
  exists w',
    (if fired
     then auto_generate_data clock entropy ;;
          t <- datetime_now clock ;;
          put_last_auto_time t ;;
          ret (now, true)
     else ret (now, false)) w = (Ok (now, fired), w')
    /\ grows false w w'
    /\ (if fired
        then exists k', (ticks w <= k' < ticks w')%nat
                        /\ last_auto_time w' = Some (clock k')
        else last_auto_time w' = Some l).
Proof.
  intros Hl. destruct fired.
  - destruct (runs_auto_generate_data clock entropy w) as ([] & w1 & Hrun & Hg).
    unfold bind at 1. rewrite Hrun.
    eexists. split; [reflexivity|].
    destruct Hg as [Ht (q & Hp & Hq)].
    split; [split; [simpl; lia|]|].
    + exists q. simpl. split; assumption.
    + exists (ticks w1). simpl. split; [lia | reflexivity].
  - exists w. split; [reflexivity|]. split; [apply grows_refl | exact Hl].
Qed.

Lemma auto_section_run (clock entropy : nat -> Z) (w : World) :
  exists w',
    auto_section clock entropy w
    = (Ok (clock (check_index w),
           interval_elapsed (clock (check_index w)) (check_base clock w)), w')
    /\ grows false w w'
    /\ (check_index w < ticks w')%nat
    /\ (if interval_elapsed (clock (check_index w)) (check_base clock w)
        then exists k', (check_index w < k' < ticks w')%nat
                        /\ last_auto_time w' = Some (clock k')
        else last_auto_time w' = Some (check_base clock w)).
Proof.
  unfold auto_section, check_index, check_base.
  destruct (last_auto_time w) as [l|] eqn:Hl.
  - unfold bind at 1, get_last_auto_time at 1. rewrite Hl.
    unfold bind at 1, when, ret at 1.
    unfold bind at 1, datetime_now at 1.
    unfold bind at 1, get_last_auto_time at 1.
    cbn [last_auto_time set_ticks]. rewrite Hl.
    fold (interval_elapsed (clock (ticks w)) l).
    destruct (auto_check_arms clock entropy (clock (ticks w)) l
                (interval_elapsed (clock (ticks w)) l)
                (set_ticks (S (ticks w)) w) Hl)
      as (w' & Hrun & [Ht (q & Hp & Hq)] & Hlast).
    exists w'. split; [exact Hrun|]. simpl in Ht, Hp.
    split; [split; [lia | exists q; split; assumption]|].
    split; [lia|].
    destruct (interval_elapsed _ _); [|exact Hlast].
    destruct Hlast as (k' & Hk & Hlast). exists k'. simpl in Hk.
    split; [lia | exact Hlast].
  - unfold bind at 1, get_last_auto_time at 1. rewrite Hl.
    unfold bind at 1, when.
    unfold bind at 1, datetime_now at 1.
    unfold put_last_auto_time at 1.
    unfold bind at 1, datetime_now at 1.
    unfold bind at 1, get_last_auto_time at 1.
    cbn [last_auto_time set_ticks set_last_auto_time ticks].
    fold (interval_elapsed (clock (S (ticks w))) (clock (ticks w))).
    match goal with
    | |- context [ _ ?w1 = (_, _) ] =>
        destruct (auto_check_arms clock entropy (clock (S (ticks w)))
                    (clock (ticks w))
                    (interval_elapsed (clock (S (ticks w))) (clock (ticks w)))
                    w1 eq_refl)
          as (w' & Hrun & [Ht (q & Hp & Hq)] & Hlast)
    end.
    exists w'. split; [exact Hrun|]. simpl in Ht, Hp.
    split; [split; [lia | exists q; split; assumption]|].
    split; [lia|].
    destruct (interval_elapsed _ _); [|exact Hlast].
    destruct Hlast as (k' & Hk & Hlast). exists k'. simpl in Hk.
    split; [lia | exact Hlast].
Qed.

(** One run of the script, start to end: it does not raise; it alerts
    exactly above the threshold; it analyses only full batches; and its
    auto-generation check, made from the state [w1] the manual section
    leaves, behaves as [auto_section_run] says. *)
Lemma main_run (clock entropy : nat -> Z) (i : Input) (w : World) :
  exists r w',
    main clock entropy i w = (Ok r, w')
    /\ grows (HIGH_TRAFFIC_THRESHOLD <? in_cars i + in_bicycles i + in_pedestrians i)
             w w'
    /\ (forall t, analysed r = Some t ->
          (RECORDS_PER_ANALYSIS <= len t)%nat
          /\ (len t mod RECORDS_PER_ANALYSIS)%nat = 0%nat)
    /\ exists w1,
         (ticks w <= ticks w1)%nat
         /\ last_auto_time w1 = last_auto_time w
         /\ checked_at r = clock (check_index w1)
         /\ generated r = interval_elapsed (checked_at r) (check_base clock w1)
         /\ (check_index w1 < ticks w')%nat
         /\ (if generated r
             then exists k', (check_index w1 < k' < ticks w')%nat
                             /\ last_auto_time w' = Some (clock k')
             else last_auto_time w' = Some (check_base clock w1)).
Proof.
  destruct (runs_manual_section clock i w) as ([] & w1 & Hrun1 & Hg1).
  pose proof (keeps_manual_section clock i w) as Hk1.
  rewrite Hrun1 in Hk1. simpl in Hk1.
  destruct (auto_section_run clock entropy w1)
    as (w2 & Hrun2 & Hg2 & Hidx & Hlast).
  destruct (display_section_run w2) as (an & w3 & Hrun3 & Hg3 & Han).
  pose proof (keeps_display_section w2) as Hk3.
  rewrite Hrun3 in Hk3. simpl in Hk3.
  eexists _, w3. split.
  { unfold main, bind. rewrite Hrun1, Hrun2, Hrun3. reflexivity. }
  split.
  { rewrite <- (orb_false_r (_ <? _)).
    eapply grows_trans; [exact Hg1|].
    apply (grows_trans false false w1 w2 w3); assumption. }
  split; [exact Han|].
  exists w1. simpl.
  destruct Hg1 as [Ht1 _]. destruct Hg3 as [Ht3 _].
  split; [exact Ht1|]. split; [exact Hk1|].
  split; [reflexivity|]. split; [reflexivity|].
  split; [lia|].
  rewrite Hk3.
  destruct (interval_elapsed _ _); [|exact Hlast].
  destruct Hlast as (k' & Hk & Hl). exists k'. split; [lia | exact Hl].
Qed.



(** C8: in a run of the script the high-traffic alert is on the page
    exactly when the three pending counts sum to more than 50; the file,
    the session state and everything recorded before play no part: two runs
    on the same counts from any two states agree on the alert. *)
Theorem high_traffic_alert_iff (clock entropy : nat -> Z) (i : Input) :
  (forall w,
      alert_fired (page (snd (rerun clock entropy i w))) = true
      <-> in_cars i + in_bicycles i + in_pedestrians i > HIGH_TRAFFIC_THRESHOLD)
  /\ (forall w1 w2,
        alert_fired (page (snd (rerun clock entropy i w1)))
        = alert_fired (page (snd (rerun clock entropy i w2)))).
Proof.
  assert (Hpage : forall w,
    alert_fired (page (snd (rerun clock entropy i w)))
    = (HIGH_TRAFFIC_THRESHOLD <? in_cars i + in_bicycles i + in_pedestrians i)).
  { intros w. unfold rerun.
    destruct (main_run clock entropy i (set_page [] w))
      as (r & w' & Hrun & [_ (q & Hp & Hq)] & _).
    rewrite Hrun. simpl in *. rewrite Hp. exact Hq. }
  split.
  - intros w. rewrite Hpage, Z.ltb_lt. lia.
  - intros w1 w2. rewrite !Hpage. reflexivity.
Qed.

(** ** Sessions *)

Section Session.

Variables clock entropy : nat -> Z.
Hypothesis clock_monotone : monotone clock.

(** A run that generates leaves the session settled at its check time. *)
Lemma rerun_settles (i : Input) (w w' : World) (r : Report) :
  rerun clock entropy i w = (Ok r, w') ->
  generated r = true ->
  settled clock w' (checked_at r).
Proof.
  unfold rerun. intros Hrun Hgen.
  destruct (main_run clock entropy i (set_page [] w))
    as (r0 & w0 & Hrun0 & _ & _ & w1 & _ & _ & Hchk & _ & Hidx & Hlast).
  rewrite Hrun in Hrun0. inversion Hrun0; subst r0 w0; clear Hrun0.
  rewrite Hgen in Hlast. destruct Hlast as (k' & Hk & Hl).
  rewrite Hchk. split.
  - exists (clock k'). split; [exact Hl|]. apply clock_monotone. lia.
  - intros n Hn. apply clock_monotone. lia.
Qed.

(** A settled session stays settled, and a later run generates only once
    more than the interval has passed. *)
Lemma rerun_keeps_settled (i : Input) (w w' : World) (r : Report) (T : Z) :
  settled clock w T ->
  rerun clock entropy i w = (Ok r, w') ->
  settled clock w' T
  /\ (generated r = true ->
      AUTO_INTERVAL_SECONDS * MICROS_PER_SECOND < checked_at r - T).
Proof.
  unfold rerun. intros [(l & Hl & HTl) Hfut] Hrun.
  destruct (main_run clock entropy i (set_page [] w))
    as (r0 & w0 & Hrun0 & _ & _ & w1 & Ht1 & Hl1 & Hchk & Hgen & Hidx & Hlast).
  rewrite Hrun in Hrun0. inversion Hrun0; subst r0 w0; clear Hrun0.
  simpl in Ht1, Hl1. rewrite Hl in Hl1.
  assert (Hbase : check_base clock w1 = l)
    by (unfold check_base; rewrite Hl1; reflexivity).
  assert (Hci : check_index w1 = ticks w1)
    by (unfold check_index; rewrite Hl1; reflexivity).
  rewrite Hbase in *. rewrite Hci in *.
  split.
  - split.
    + destruct (generated r).
      * destruct Hlast as (k' & Hk & Hl'). exists (clock k').
        split; [exact Hl'|]. apply Hfut. lia.
      * exists l. split; assumption.
    + intros n Hn. apply Hfut. lia.
  - intros Hg. rewrite Hg in Hgen. symmetry in Hgen.
    unfold interval_elapsed in Hgen. apply Z.ltb_lt in Hgen. lia.
Qed.

Lemma session_settled (inputs : list Input) :
  forall (w : World) (T : Z),
    settled clock w T ->
    forall j rj,
      nth_error (session clock entropy inputs w) j = Some rj ->
      generated rj = true ->
      AUTO_INTERVAL_SECONDS * MICROS_PER_SECOND < checked_at rj - T.
Proof.
  induction inputs as [|i inputs IH]; intros w T Hset j rj Hj Hgen.
  - destruct j; discriminate.
  - simpl in Hj.
    destruct (rerun clock entropy i w) as [[r|e] w'] eqn:Hrun;
      [|destruct j; discriminate].
    destruct (rerun_keeps_settled i w w' r T Hset Hrun) as [Hset' Hfire].
    destruct j as [|j]; simpl in Hj.
    + inversion Hj; subst rj. apply Hfire, Hgen.
    + eapply IH; eassumption.
Qed.

Lemma session_spacing (inputs : list Input) :
  forall (w : World) (i j : nat) (ri rj : Report),
    (i < j)%nat ->
    nth_error (session clock entropy inputs w) i = Some ri ->
    nth_error (session clock entropy inputs w) j = Some rj ->
    generated ri = true -> generated rj = true ->
    AUTO_INTERVAL_SECONDS * MICROS_PER_SECOND < checked_at rj - checked_at ri.
Proof.
  induction inputs as [|inp inputs IH]; intros w i j ri rj Hij Hi Hj Hgi Hgj.
  - destruct i; discriminate.
  - simpl in Hi, Hj.
    destruct (rerun clock entropy inp w) as [[r|e] w'] eqn:Hrun;
      [|destruct i; discriminate].
    destruct j as [|j]; [lia|]. simpl in Hj.
    destruct i as [|i]; simpl in Hi.
    + inversion Hi; subst ri.
      eapply session_settled; [|exact Hj|exact Hgj].
      eapply rerun_settles; eassumption.
    + eapply (IH w' i j); try eassumption. lia.
Qed.

End Session.

Lemma session_length (clock entropy : nat -> Z) (inputs : list Input) :
  forall w, List.length (session clock entropy inputs w) = List.length inputs.
Proof.
  induction inputs as [|i inputs IH]; intros w; simpl; [reflexivity|].
  unfold rerun.
  destruct (main_run clock entropy i (set_page [] w)) as (r & w' & Hrun & _).
  rewrite Hrun. simpl. rewrite IH. reflexivity.
Qed.

(** C4: in a session whose clock does not run backwards, every input gets
    its run, and of two runs whose auto-generation checks read the clock
    less than 10 seconds apart, at most one generates a record. *)
Theorem auto_generation_once_per_interval
        (clock entropy : nat -> Z) (inputs : list Input) (w : World) :
  monotone clock ->
  List.length (session clock entropy inputs w) = List.length inputs
  /\ forall (i j : nat) (ri rj : Report),
       (i < j)%nat ->
       nth_error (session clock entropy inputs w) i = Some ri ->
       nth_error (session clock entropy inputs w) j = Some rj ->
       checked_at rj - checked_at ri < AUTO_INTERVAL_SECONDS * MICROS_PER_SECOND ->
       ~ (generated ri = true /\ generated rj = true).
Proof.
  intros Hmono. split; [apply session_length|].
  intros i j ri rj Hij Hi Hj Hclose [Hgi Hgj].
  pose proof (session_spacing clock entropy Hmono inputs w i j ri rj
                Hij Hi Hj Hgi Hgj).
  lia.
Qed.

(** ** Worked instances *)

(** The worked example of the specification: hourly sums 5 -> 15 and
    9 -> 7, peak hour 5 with 15. *)
Example analyze_data_example :
  snd (analyze_data (frame_of example_table))
  = Ok ([(5, 15); (9, 7)], 5, Some 15).
Proof. reflexivity. Qed.

Example analyze_data_tied :
  snd (analyze_data (frame_of tied_table))
  = Ok ([(3, 3); (5, 10); (9, 10)], 5, Some 10).
Proof. reflexivity. Qed.

Lemma sample_clock_monotone : monotone sample_clock.
Proof. intros m n Hmn. unfold sample_clock. lia. Defined.

Lemma add_entry_then_load_data_witness :
  monotone sample_clock
  /\ valid_count 3 /\ valid_count 1 /\ valid_count 4
  /\ int64_table (stored fresh_world)
  /\ exists t_in before t_out r w',
       append_then_load sample_clock 3 1 4 fresh_world
       = (Ok (t_in, before, t_out, before ++ [r]), w')
       /\ (exists df, fst (load_data fresh_world) = Ok df /\ base df = before)
       /\ Cars r = 3 /\ Bicycles r = 1 /\ Pedestrians r = 4
       /\ valid_record r
       /\ int64_table (before ++ [r])
       /\ t_in <= Time r <= t_out.
Proof.
  assert (Hv : forall z, 0 <= z <= 4 -> valid_count z)
    by (intros z Hz; unfold valid_count, INT64_MAX; lia).
  split; [exact sample_clock_monotone|].
  split; [apply Hv; lia|]. split; [apply Hv; lia|]. split; [apply Hv; lia|].
  split; [constructor|].
  apply (add_entry_then_load_data sample_clock 3 1 4 fresh_world);
    [exact sample_clock_monotone | apply Hv; lia | apply Hv; lia
     | apply Hv; lia | constructor].
Defined.

Lemma tied_table_int64 : int64_table tied_table.
Proof.
  repeat constructor; unfold in_int64, INT64_MIN, INT64_MAX; simpl; lia.
Defined.

Lemma tied_table_fits (h : Z) :
  In h (hours_present tied_table) -> in_int64 (hour_total tied_table h).
Proof.
  unfold in_int64, INT64_MIN, INT64_MAX.
  intros [<-|[<-|[<-|[<-|[]]]]]; vm_compute; split; discriminate.
Defined.

Lemma analyze_data_peak_lowest_tied_hour_witness :
  base (frame_of tied_table) <> []
  /\ Time_dtype (frame_of tied_table) = datetime64
  /\ int64_table (base (frame_of tied_table))
  /\ exists hourly peak_hour peak_traffic,
       snd (analyze_data (frame_of tied_table))
       = Ok (hourly, peak_hour, Some peak_traffic)
       /\ In peak_hour (hours_present tied_table)
       /\ peak_traffic = hour_total tied_table peak_hour
       /\ (forall h, In h (hours_present tied_table) ->
                     hour_total tied_table h <= peak_traffic)
       /\ (forall h, In h (hours_present tied_table) ->
                     hour_total tied_table h = peak_traffic -> peak_hour <= h).
Proof.
  split; [discriminate|]. split; [reflexivity|].
  split; [exact tied_table_int64|].
  destruct (analyze_data_peak_lowest_tied_hour (frame_of tied_table))
    as (hourly & ph & pt & Hres & Hin & _ & _ & _ & Hfit);
    [discriminate | reflexivity | exact tied_table_int64 |].
  exists hourly, ph, pt.
  split; [exact Hres|]. split; [exact Hin|].
  exact (Hfit tied_table_fits).
Defined.

Lemma overflow_table_hours (h : Z) :
  In h (hours_present overflow_table) -> h = 5 \/ h = 7 \/ h = 9.
Proof.
  unfold hours_present, overflow_table. rewrite !map_app, !in_app_iff.
  rewrite !in_map_iff.
  intros [(r & <- & Hr)|[(r & <- & Hr)|(r & <- & Hr)]];
    apply repeat_spec in Hr; subst r; vm_compute; tauto.
Qed.

Lemma overflow_table_int64 : int64_table overflow_table.
Proof.
  unfold int64_table, overflow_table. rewrite !Forall_app.
  repeat split; apply Forall_forall; intros r Hr;
    apply repeat_spec in Hr; subst r;
    unfold int64_record, in_int64, INT64_MIN, INT64_MAX, WIDGET_MAX; simpl; lia.
Qed.

(** Where summed totals leave int64 the peak hour is not among the hours
    that share the maximum summed total. In [overflow_table], whose counts
    are all within the widget's range, hours 5 and 9 share the largest
    summed total and hour 7 has a summed total of 12; the sums of hours 5
    and 9 wrap around to a negative value and [analyze_data] returns hour 7
    with a peak of 12. *)
Lemma analyze_data_overflow_peak :
  base (frame_of overflow_table) <> []
  /\ int64_table overflow_table
  /\ hour_total overflow_table 5 = 9241386435364256766
  /\ hour_total overflow_table 9 = 9241386435364256766
  /\ hour_total overflow_table 7 = 12
  /\ (forall h, In h (hours_present overflow_table) ->
                hour_total overflow_table h <= hour_total overflow_table 5)
  /\ snd (analyze_data (frame_of overflow_table))
     = Ok ([(5, -9205357638345294850); (7, 12); (9, -9205357638345294850)],
           7, Some 12)
  /\ ~ (exists hourly peak_hour peak_traffic,
          snd (analyze_data (frame_of overflow_table))
          = Ok (hourly, peak_hour, Some peak_traffic)
          /\ peak_traffic = hour_total overflow_table peak_hour
          /\ (forall h, In h (hours_present overflow_table) ->
                        hour_total overflow_table h <= peak_traffic)).
Proof.
  assert (H5 : hour_total overflow_table 5 = 9241386435364256766)
    by (vm_compute; reflexivity).
  assert (H9 : hour_total overflow_table 9 = 9241386435364256766)
    by (vm_compute; reflexivity).
  assert (H7 : hour_total overflow_table 7 = 12) by (vm_compute; reflexivity).
  assert (Hres : snd (analyze_data (frame_of overflow_table))
                 = Ok ([(5, -9205357638345294850); (7, 12);
                        (9, -9205357638345294850)], 7, Some 12))
    by (vm_compute; reflexivity).
  split; [discriminate|]. split; [exact overflow_table_int64|].
  split; [exact H5|]. split; [exact H9|]. split; [exact H7|].
  split.
  { intros h Hh. destruct (overflow_table_hours h Hh) as [-> | [-> | ->]];
      rewrite ?H5, ?H7, ?H9; lia. }
  split; [exact Hres|].
  intros (hourly & ph & pt & Hres' & _ & Hmax).
  rewrite Hres in Hres'. injection Hres' as _ _ Hpt.
  assert (H5in : In 5 (hours_present overflow_table))
    by (vm_compute; left; reflexivity).
  specialize (Hmax 5 H5in). rewrite H5, <- Hpt in Hmax. lia.
Qed.


Lemma tied_table_returns :
  snd (analyze_data (frame_of tied_table))
  = Ok ([(3, 3); (5, 10); (9, 10)], 5, Some 10).
Proof. reflexivity. Defined.

Lemma analyze_data_adds_columns_witness :
  int64_table (base (frame_of tied_table))
  /\ snd (analyze_data (frame_of tied_table))
     = Ok ([(3, 3); (5, 10); (9, 10)], 5, Some 10)
  /\ base (fst (analyze_data (frame_of tied_table))) = tied_table
  /\ Total (fst (analyze_data (frame_of tied_table))) = Some [10; 5; 5; 3]
  /\ Hour (fst (analyze_data (frame_of tied_table))) = Some [9; 5; 5; 3].
Proof.
  split; [exact tied_table_int64|]. split; [exact tied_table_returns|].
  destruct (analyze_data_adds_columns (frame_of tied_table) _
              tied_table_int64 tied_table_returns)
    as (Hbase & _ & _ & _).
  split; [exact Hbase|]. split; reflexivity.
Defined.

Lemma auto_generation_once_per_interval_witness :
  monotone sample_clock
  /\ exists ri rj,
       nth_error (session sample_clock sample_entropy
                          (repeat idle_input 8) fresh_world) 5 = Some ri
       /\ nth_error (session sample_clock sample_entropy
                             (repeat idle_input 8) fresh_world) 6 = Some rj
       /\ generated ri = true
       /\ checked_at rj - checked_at ri
          < AUTO_INTERVAL_SECONDS * MICROS_PER_SECOND
       /\ ~ (generated ri = true /\ generated rj = true).
Proof.
  split; [exact sample_clock_monotone|].
  exists (mkReport 1700000012000000 true None),
         (mkReport 1700000020000000 false None).
  split; [vm_compute; reflexivity|].
  split; [vm_compute; reflexivity|].
  split; [reflexivity|].
  split; [vm_compute; reflexivity|].
  apply (proj2 (auto_generation_once_per_interval
                  sample_clock sample_entropy (repeat idle_input 8)
                  fresh_world sample_clock_monotone)
               5%nat 6%nat);
    [lia | vm_compute; reflexivity | vm_compute; reflexivity
     | vm_compute; reflexivity].
Defined.

Lemma load_data_missing_store_witness :
  csv_file fresh_world = None
  /\ exists df w',
       load_data fresh_world = (Ok df, w')
       /\ base df = []
       /\ df = fresh_frame
       /\ csv_file w' = Some []
       /\ w' = set_csv (Some []) fresh_world.
Proof.
  split; [reflexivity|].
  apply (load_data_missing_store fresh_world). reflexivity.
Defined.

Lemma clear_data_idempotent_witness :
  csv_file fresh_world = None
  /\ clear_data fresh_world
     = (Ok tt, set_page [st_info "No data file found to delete."] fresh_world)
  /\ csv_file (snd (clear_data fresh_world)) = None.
Proof.
  split; [reflexivity|].
  destruct (clear_data_idempotent fresh_world eq_refl) as (Hrun & Hcsv & _).
  split; [exact Hrun | exact Hcsv].
Defined.

Lemma high_traffic_alert_iff_witness :
  in_cars busy_input + in_bicycles busy_input + in_pedestrians busy_input
  > HIGH_TRAFFIC_THRESHOLD
  /\ alert_fired (page (snd (rerun sample_clock sample_entropy busy_input
                                   fresh_world))) = true.
Proof.
  split; [reflexivity|].
  apply (proj1 (high_traffic_alert_iff sample_clock sample_entropy busy_input)
               fresh_world).
  reflexivity.
Defined.

(** * Further properties *)

(** ** The hourly aggregation *)

Lemma dt_hour_range (t : Z) : 0 <= dt_hour t < 24.
Proof. unfold dt_hour. apply Z.mod_pos_bound. lia. Qed.

Lemma increasing_bounded_length (s : Series) :
  forall lo hi,
    increasing s ->
    Forall (fun y => lo <= fst y < hi) s ->
    Z.of_nat (List.length s) <= Z.max 0 (hi - lo).
Proof.
  induction s as [|x s IH]; intros lo hi Hinc Hb; simpl List.length.
  - lia.
  - destruct Hinc as [Hhd Hinc].
    inversion Hb as [|? ? Hx Hs]; subst.
    assert (Hs' : Forall (fun y => fst x + 1 <= fst y < hi) s).
    { rewrite Forall_forall in *. intros y Hy.
      specialize (Hhd y Hy). specialize (Hs y Hy). simpl in *. lia. }
    specialize (IH (fst x + 1) hi Hinc Hs'). lia.
Qed.

Lemma hour_total_nonneg (t : Table) (h : Z) :
  Forall valid_record t -> 0 <= hour_total t h.
Proof.
  unfold hour_total. induction 1 as [|r t Hr _ IH]; simpl; [lia|].
  assert (Hr0 : 0 <= total_of r)
    by (destruct Hr as (Hc & Hb & Hp); unfold total_of; lia).
  destruct (hour_of r =? h); simpl; lia.
Qed.

Lemma hour_total_le_grand (t : Table) (h : Z) :
  Forall valid_record t -> hour_total t h <= grand_total t.
Proof.
  unfold hour_total, grand_total. induction 1 as [|r t Hr _ IH]; simpl; [lia|].
  assert (Hr0 : 0 <= total_of r)
    by (destruct Hr as (Hc & Hb & Hp); unfold total_of; lia).
  destruct (hour_of r =? h); simpl; lia.
Qed.

Lemma total_le_hour_total (t : Table) (r : TrafficRecord) :
  Forall valid_record t -> In r t -> total_of r <= hour_total t (hour_of r).
Proof.
  intros Hv. induction Hv as [|r0 t Hr0 Hv IH]; intros Hin; [destruct Hin|].
  pose proof (hour_total_nonneg t (hour_of r) Hv) as Hnn.
  unfold hour_total in *. simpl.
  destruct Hin as [->|Hin].
  - rewrite Z.eqb_refl. simpl. lia.
  - specialize (IH Hin).
    assert (H0 : 0 <= total_of r0)
      by (destruct Hr0 as (Hc & Hb & Hp); unfold total_of; lia).
    destruct (hour_of r0 =? hour_of r); simpl; lia.
Qed.

Lemma grand_total_nonneg (t : Table) :
  Forall valid_record t -> 0 <= grand_total t.
Proof.
  unfold grand_total. induction 1 as [|r t Hr _ IH]; simpl; [lia|].
  assert (Hr0 : 0 <= total_of r)
    by (destruct Hr as (Hc & Hb & Hp); unfold total_of; lia).
  lia.
Qed.

(** When the total of all records fits int64 and no count is negative, so
    does the summed total of every hour. *)
Lemma hour_total_fits (t : Table) (h : Z) :
  Forall valid_record t -> grand_total t <= INT64_MAX ->
  in_int64 (hour_total t h).
Proof.
  intros Hv Hg.
  pose proof (hour_total_nonneg t h Hv).
  pose proof (hour_total_le_grand t h Hv).
  unfold in_int64, INT64_MIN, INT64_MAX in *. lia.
Qed.

(** X1: when [analyze_data] returns on a frame of int64 counts, its hourly
    Series lists the hours in strictly increasing order, and it holds the
    pair (h, m) exactly when some record falls in hour h and m is the sum
    of the totals of the records of that hour, reduced to int64; when the
    summed total of every hour fits int64, m is that summed total. *)
Theorem analyze_data_hourly (df : DataFrame) hourly peak_hour peak_traffic :
  int64_table (base df) ->
  snd (analyze_data df) = Ok (hourly, peak_hour, peak_traffic) ->
  increasing hourly
  /\ (forall h m,
        In (h, m) hourly
        <-> In h (hours_present (base df))
            /\ m = wrap64 (hour_total (base df) h))
  /\ ((forall h, In h (hours_present (base df)) ->
                 in_int64 (hour_total (base df) h)) ->
      forall h m,
        In (h, m) hourly
        <-> In h (hours_present (base df)) /\ m = hour_total (base df) h).
Proof.
  intros _ Hok. destruct (analyze_data_ok df _ _ _ Hok) as (-> & _ & _).
  split; [apply hourly_of_increasing|].
  split; [intros h m; apply hourly_of_entries|].
  intros Hfit h m. rewrite hourly_of_entries.
  split; intros [Hh Hm]; (split; [exact Hh|]);
    rewrite Hm; [|symmetry]; apply wrap64_id, Hfit, Hh.
Qed.

(** X2: the hourly Series of a successful call has between 1 and 24
    entries, every one of them indexed by an hour of 0..23. *)
Theorem analyze_data_hourly_size (df : DataFrame) hourly peak_hour peak_traffic :
  snd (analyze_data df) = Ok (hourly, peak_hour, peak_traffic) ->
  (1 <= List.length hourly <= 24)%nat
  /\ (forall h m, In (h, m) hourly -> 0 <= h <= 23)
  /\ 0 <= peak_hour <= 23.
Proof.
  intros Hok. destruct (analyze_data_ok df _ _ _ Hok) as (Hh & Hne & Hdt).
  assert (Hrange : forall h m, In (h, m) hourly -> 0 <= h <= 23).
  { intros h m Hin. rewrite Hh in Hin. apply hourly_of_entries in Hin.
    destruct Hin as [Hk _]. unfold hours_present in Hk.
    apply in_map_iff in Hk. destruct Hk as (r & <- & _).
    pose proof (dt_hour_range (Time r)). unfold hour_of. lia. }
  split; [|split; [exact Hrange|]].
  - split.
    + destruct (analyze_data_nonempty df Hne Hdt) as (x & s & Hg & _).
      rewrite Hh, Hg. simpl. lia.
    + assert (Hb : Z.of_nat (List.length hourly) <= Z.max 0 (24 - 0)).
      { apply increasing_bounded_length.
        - rewrite Hh. apply hourly_of_increasing.
        - apply Forall_forall. intros [h m] Hin. simpl.
          specialize (Hrange h m Hin). lia. }
      lia.
  - destruct (analyze_data_nonempty df Hne Hdt) as (x & s & Hg & Hres).
    rewrite Hres in Hok. inversion Hok; subst hourly peak_hour peak_traffic.
    pose proof (hourly_of_increasing (base df)) as Hinc. rewrite Hg in Hinc.
    destruct (first_max_spec s x Hinc) as (Hin & _).
    destruct (first_max x s) as [h m]. simpl.
    apply (Hrange h m). rewrite Hg. exact Hin.
Qed.

Lemma series_sum_nonneg (s : Series) :
  Forall (fun y => 0 <= snd y) s -> 0 <= series_sum s.
Proof.
  unfold series_sum. induction 1 as [|y s Hy _ IH]; simpl; lia.
Qed.

Lemma series_sum_group_add (h t : Z) (s : Series) :
  wrap64 (series_sum (group_add h t s)) = wrap64 (series_sum s + t).
Proof.
  unfold series_sum.
  induction s as [|[h' t'] s IH]; simpl.
  - f_equal. lia.
  - destruct (h <? h'); simpl; [f_equal; lia|].
    destruct (h =? h'); simpl.
    + rewrite wrap64_add_l. f_equal. lia.
    + rewrite (wrap64_congr _ _ _ IH). f_equal. lia.
Qed.

Lemma series_sum_fold (t : Table) (acc : Series) :
  wrap64 (series_sum (fold_left (fun s r => group_add (hour_of r) (total64 r) s)
                                t acc))
  = wrap64 (series_sum acc + grand_total t).
Proof.
  revert acc; induction t as [|r t IH]; intros acc; simpl.
  - unfold grand_total; simpl. f_equal. lia.
  - rewrite IH.
    rewrite <- (wrap64_add_l (series_sum (group_add _ _ acc))).
    rewrite series_sum_group_add, wrap64_add_l, total64_total.
    unfold grand_total; simpl.
    replace (series_sum acc + wrap64 (total_of r)
             + fold_right Z.add 0 (map total_of t))
      with (wrap64 (total_of r)
            + (series_sum acc + fold_right Z.add 0 (map total_of t))) by lia.
    rewrite wrap64_add_l. f_equal. lia.
Qed.

(** Without overflow [group_add] adds exactly. *)
Lemma group_add_exact (h t : Z) (s : Series) :
  Forall (fun y => 0 <= snd y) s ->
  0 <= t ->
  series_sum s + t <= INT64_MAX ->
  series_sum (group_add h t s) = series_sum s + t
  /\ Forall (fun y => 0 <= snd y) (group_add h t s).
Proof.
  unfold series_sum.
  induction s as [|[h' t'] s IH]; intros Hs Ht Hfit; simpl.
  - split; [lia|]. constructor; [exact Ht | constructor].
  - inversion Hs as [|? ? Ht' Hs']; subst. simpl in Ht', Hfit.
    pose proof (series_sum_nonneg s Hs') as Hnn. unfold series_sum in Hnn.
    destruct (h <? h'); simpl.
    + split; [lia|]. constructor; [exact Ht | exact Hs].
    + destruct (h =? h'); simpl.
      * rewrite wrap64_id
          by (unfold in_int64, INT64_MIN, INT64_MAX in *; lia).
        split; [lia|]. constructor; [simpl; lia | exact Hs'].
      * destruct (IH Hs' Ht) as [Hsum Hall]; [lia|].
        split; [lia|]. constructor; [exact Ht' | exact Hall].
Qed.

Lemma series_sum_fold_exact (t : Table) :
  forall acc,
    Forall valid_record t ->
    Forall (fun y => 0 <= snd y) acc ->
    series_sum acc + grand_total t <= INT64_MAX ->
    series_sum (fold_left (fun s r => group_add (hour_of r) (total64 r) s) t acc)
    = series_sum acc + grand_total t.
Proof.
  induction t as [|r t IH]; intros acc Hv Hacc Hfit; simpl.
  - unfold grand_total; simpl; lia.
  - inversion Hv as [|? ? Hr Hvt]; subst.
    pose proof (grand_total_nonneg t Hvt) as Hgt.
    pose proof (series_sum_nonneg acc Hacc) as Hnn.
    assert (Hr0 : 0 <= total_of r)
      by (destruct Hr as (Hc & Hb & Hp); unfold total_of; lia).
    assert (Hg : grand_total (r :: t) = total_of r + grand_total t)
      by reflexivity.
    rewrite Hg in Hfit |- *.
    assert (H64 : total64 r = total_of r).
    { rewrite total64_total. apply wrap64_id.
      unfold in_int64, INT64_MIN, INT64_MAX in *. lia. }
    rewrite H64.
    destruct (group_add_exact (hour_of r) (total_of r) acc Hacc Hr0)
      as [Hsum Hall]; [lia|].
    rewrite (IH _ Hvt Hall) by lia. lia.
Qed.

(** X3: on a frame of int64 counts the hourly sums [analyze_data] returns
    add up to the total of all records modulo 2^64; when no count is
    negative and the total of all records fits int64 they add up to that
    total exactly: grouping loses and duplicates nothing. *)
Theorem analyze_data_conserves_total (df : DataFrame) hourly peak_hour peak_traffic :
  int64_table (base df) ->
  snd (analyze_data df) = Ok (hourly, peak_hour, peak_traffic) ->
  wrap64 (series_sum hourly) = wrap64 (grand_total (base df))
  /\ (Forall valid_record (base df) ->
      grand_total (base df) <= INT64_MAX ->
      series_sum hourly = grand_total (base df)).
Proof.
  intros _ Hok. destruct (analyze_data_ok df _ _ _ Hok) as (-> & _ & _).
  unfold hourly_of, groupby_sum. rewrite groupby_sum_rows.
  split.
  - rewrite series_sum_fold. reflexivity.
  - intros Hv Hfit. rewrite series_sum_fold_exact; try assumption.
    + reflexivity.
    + constructor.
Qed.

Lemma hour_total_perm (t1 t2 : Table) (h : Z) :
  Permutation t1 t2 -> hour_total t1 h = hour_total t2 h.
Proof.
  unfold hour_total.
  induction 1 as [|r t1 t2 _ IH|r1 r2 t|t1 t2 t3 _ IH1 _ IH2]; simpl.
  - reflexivity.
  - destruct (hour_of r =? h); simpl; lia.
  - destruct (hour_of r1 =? h), (hour_of r2 =? h); simpl; lia.
  - lia.
Qed.

(** Two Series with increasing indices, the same keys and the same value
    under every key are the same Series. *)
Lemma increasing_ext (s1 : Series) :
  forall s2,
    increasing s1 -> increasing s2 ->
    (forall k, In k (map fst s1) <-> In k (map fst s2)) ->
    (forall k, sum_at k s1 = sum_at k s2) ->
    s1 = s2.
Proof.
  induction s1 as [|[k1 v1] s1 IH]; intros [|[k2 v2] s2] Hi1 Hi2 Hkeys Hsum.
  - reflexivity.
  - exfalso. apply (Hkeys k2). left; reflexivity.
  - exfalso. apply (Hkeys k1). left; reflexivity.
  - destruct Hi1 as [Hhd1 Hi1]. destruct Hi2 as [Hhd2 Hi2].
    rewrite Forall_forall in Hhd1, Hhd2.
    assert (Hlt1 : forall k, In k (map fst s1) -> k1 < k).
    { intros k Hk. apply in_map_iff in Hk. destruct Hk as (y & <- & Hy).
      exact (Hhd1 y Hy). }
    assert (Hlt2 : forall k, In k (map fst s2) -> k2 < k).
    { intros k Hk. apply in_map_iff in Hk. destruct Hk as (y & <- & Hy).
      exact (Hhd2 y Hy). }
    assert (Hk : k1 = k2).
    { destruct (proj1 (Hkeys k1) (or_introl eq_refl)) as [H12|H12];
        [symmetry; exact H12|].
      destruct (proj2 (Hkeys k2) (or_introl eq_refl)) as [H21|H21];
        [exact H21|].
      specialize (Hlt1 _ H21). specialize (Hlt2 _ H12). lia. }
    subst k2.
    assert (Habs1 : sum_at k1 s1 = 0).
    { apply sum_at_absent, Forall_forall. intros y Hy.
      specialize (Hhd1 y Hy). simpl in Hhd1. lia. }
    assert (Habs2 : sum_at k1 s2 = 0).
    { apply sum_at_absent, Forall_forall. intros y Hy.
      specialize (Hhd2 y Hy). simpl in Hhd2. lia. }
    assert (Hv : v1 = v2).
    { specialize (Hsum k1). simpl in Hsum. rewrite Z.eqb_refl in Hsum. lia. }
    subst v2. f_equal.
    apply IH; try assumption.
    + intros k. split; intros Hin.
      * destruct (proj1 (Hkeys k) (or_intror Hin)) as [He|Hin']; [|exact Hin'].
        simpl in He. specialize (Hlt1 _ Hin). lia.
      * destruct (proj2 (Hkeys k) (or_intror Hin)) as [He|Hin']; [|exact Hin'].
        simpl in He. specialize (Hlt2 _ Hin). lia.
    + intros k. specialize (Hsum k). simpl in Hsum. lia.
Qed.

Lemma hourly_of_perm (t1 t2 : Table) :
  Permutation t1 t2 -> hourly_of t1 = hourly_of t2.
Proof.
  intros Hperm.
  apply increasing_ext; try apply hourly_of_increasing.
  - intros k. rewrite !hourly_of_keys. unfold hours_present.
    split; apply Permutation_in, Permutation_map;
      [exact Hperm | symmetry; exact Hperm].
  - intros k. rewrite !hourly_of_sum_at. f_equal.
    apply hour_total_perm, Hperm.
Qed.

(** X4: the outcome of [analyze_data] does not depend on the order of the
    rows: two frames of the same [Time] dtype whose rows are a
    rearrangement of one another get the same hourly Series, peak hour and
    peak total, or the same error. *)
Theorem analyze_data_row_order (df1 df2 : DataFrame) :
  Time_dtype df1 = Time_dtype df2 ->
  Permutation (base df1) (base df2) ->
  snd (analyze_data df1) = snd (analyze_data df2).
Proof.
  intros Hdt Hperm. destruct (Time_dtype df1) eqn:Hdt1.
  - rewrite (analyze_data_parsed df1 Hdt1).
    rewrite (analyze_data_parsed df2 (eq_sym Hdt)).
    cbn [snd]. rewrite (hourly_of_perm _ _ Hperm). reflexivity.
  - rewrite (analyze_data_unparsed df1 Hdt1).
    rewrite (analyze_data_unparsed df2 (eq_sym Hdt)). reflexivity.
Qed.

(** X5: on records with non-negative counts whose total fits int64, the
    peak total that [analyze_data] returns is at least the total of every
    single record and at most the total of all records. *)
Theorem analyze_data_peak_bounds (df : DataFrame) hourly peak_hour peak_traffic :
  Forall valid_record (base df) ->
  grand_total (base df) <= INT64_MAX ->
  snd (analyze_data df) = Ok (hourly, peak_hour, Some peak_traffic) ->
  (forall r, In r (base df) -> total_of r <= peak_traffic)
  /\ peak_traffic <= grand_total (base df).
Proof.
  intros Hv Hfit Hok. destruct (analyze_data_ok df _ _ _ Hok) as (Hh & Hne & Hdt).
  destruct (analyze_data_nonempty df Hne Hdt) as (x & s & Hg & Hres).
  rewrite Hres in Hok. inversion Hok as [[Hx Hph Hpt]]. clear Hok.
  pose proof (hourly_of_increasing (base df)) as Hinc. rewrite Hg in Hinc.
  destruct (first_max_spec s x Hinc) as (Hin & Hmax & _).
  assert (Hw : forall h, wrap64 (hour_total (base df) h) = hour_total (base df) h)
    by (intros h; apply wrap64_id, hour_total_fits; assumption).
  split.
  - intros r Hr.
    assert (He : In (hour_of r, hour_total (base df) (hour_of r)) (x :: s)).
    { rewrite <- Hg. apply hourly_of_entries. split; [|symmetry; apply Hw].
      unfold hours_present. apply in_map. exact Hr. }
    specialize (Hmax _ He). simpl in Hmax.
    pose proof (total_le_hour_total (base df) r Hv Hr). lia.
  - rewrite <- Hg in Hin. destruct (first_max x s) as [h m].
    apply hourly_of_entries in Hin. destruct Hin as [_ ->]. simpl.
    rewrite Hw. apply hour_total_le_grand, Hv.
Qed.

(** ** The sample generator and the store *)

(** The whole effect of one generated sample. *)
Lemma auto_generate_data_effect (clock entropy : nat -> Z) (w : World) :
  exists r,
    generated_record r
    /\ Date r = dt_date (clock (ticks w))
    /\ Time r = clock (S (ticks w))
    /\ auto_generate_data clock entropy w
       = (Ok tt,
          mkWorld (Some (stored w ++ [r])) (S (S (ticks w))) (3 + draws w)
                  (last_auto_time w)
                  (page w ++ [st_info ("Auto-generated data - Cars: "
                                       ++ string_of_Z (Cars r)
                                       ++ ", Bicycles: "
                                       ++ string_of_Z (Bicycles r)
                                       ++ ", Pedestrians: "
                                       ++ string_of_Z (Pedestrians r))%string])).
Proof.
  eexists (mkRecord _ _ (0 + entropy (draws w) mod (20 - 0 + 1))
                        (0 + entropy (S (draws w)) mod (15 - 0 + 1))
                        (0 + entropy (S (S (draws w))) mod (30 - 0 + 1))).
  split.
  { unfold generated_record. simpl.
    pose proof (Z.mod_pos_bound (entropy (draws w)) 21).
    pose proof (Z.mod_pos_bound (entropy (S (draws w))) 16).
    pose proof (Z.mod_pos_bound (entropy (S (S (draws w)))) 31).
    lia. }
  split; [reflexivity|]. split; [reflexivity|].
  unfold auto_generate_data, bind at 1, randint at 1.
  unfold bind at 1, randint at 1. unfold bind at 1, randint at 1.
  unfold bind at 1. rewrite add_entry_run. reflexivity.
Qed.

(** X6: from any state [auto_generate_data] returns without raising; it
    appends to the stored table exactly one record, with cars in 0..20,
    bicycles in 0..15 and pedestrians in 0..30, stamped with the second of
    the two clock readings it takes; it consumes three random draws and
    reports the three counts in one info message. *)
Theorem auto_generate_data_run (clock entropy : nat -> Z) (w : World) :
  exists r,
    generated_record r
    /\ Date r = dt_date (clock (ticks w))
    /\ Time r = clock (S (ticks w))
    /\ auto_generate_data clock entropy w
       = (Ok tt,
          mkWorld (Some (stored w ++ [r])) (S (S (ticks w))) (3 + draws w)
                  (last_auto_time w)
                  (page w ++ [st_info ("Auto-generated data - Cars: "
                                       ++ string_of_Z (Cars r)
                                       ++ ", Bicycles: "
                                       ++ string_of_Z (Bicycles r)
                                       ++ ", Pedestrians: "
                                       ++ string_of_Z (Pedestrians r))%string])).
Proof. exact (auto_generate_data_effect clock entropy w). Qed.

Lemma clear_data_frame (w : World) :
  exists w',
    clear_data w = (Ok tt, w')
    /\ csv_file w' = None /\ ticks w' = ticks w /\ draws w' = draws w.
Proof.
  unfold clear_data, bind, path_exists, os_remove, st.
  destruct (csv_file w) as [t|] eqn:Hf.
  - rewrite Hf. eexists. repeat split.
  - eexists. split; [reflexivity|]. repeat split. exact Hf.
Qed.

(** What the manual section does to the store, the clock and the draws. *)
Lemma manual_section_store (clock : nat -> Z) (i : Input) (w : World) :
  stored (snd (manual_section clock i w))
  = (if clear_clicked i then []
     else stored w
          ++ (if record_clicked i
              then [mkRecord (dt_date (clock (ticks w))) (clock (S (ticks w)))
                             (in_cars i) (in_bicycles i) (in_pedestrians i)]
              else []))
  /\ ticks (snd (manual_section clock i w))
     = (if record_clicked i then S (S (ticks w)) else ticks w)
  /\ draws (snd (manual_section clock i w)) = draws w.
Proof.
  unfold manual_section, bind, st, when, ret.
  destruct (HIGH_TRAFFIC_THRESHOLD <? _);
    destruct (record_clicked i); destruct (clear_clicked i);
    cbn [set_page page csv_file ticks draws last_auto_time];
    rewrite ?add_entry_run;
    repeat match goal with
           | |- context [clear_data ?W] =>
               let w' := fresh "w'" in
               let Hrun := fresh "Hrun" in
               let Hf := fresh "Hf" in
               let Ht := fresh "Ht" in
               let Hd := fresh "Hd" in
               destruct (clear_data_frame W) as (w' & Hrun & Hf & Ht & Hd);
               rewrite Hrun; cbn [snd]; unfold stored; rewrite Hf, Ht, Hd
           end;
    cbn [snd set_page page csv_file ticks draws last_auto_time stored];
    unfold stored; cbn [csv_file]; rewrite ?app_nil_r;
    repeat split; reflexivity.
Qed.

Lemma auto_check_arms_store (clock entropy : nat -> Z) (now : Z) (fired : bool)
      (w : World) :
  exists auto,
    stored (snd ((if fired
                  then auto_generate_data clock entropy ;;
                       t <- datetime_now clock ;;
                       put_last_auto_time t ;;
                       ret (now, true)
                  else ret (now, false)) w))
    = stored w ++ auto
    /\ Forall generated_record auto
    /\ List.length auto = (if fired then 1 else 0)%nat.
Proof.
  destruct fired.
  - destruct (auto_generate_data_effect clock entropy w)
      as (r & Hr & _ & _ & Hrun).
    exists [r]. unfold bind at 1. rewrite Hrun.
    split; [reflexivity|]. split; [constructor; [exact Hr | constructor]|].
    reflexivity.
  - exists []. rewrite app_nil_r. repeat split. constructor.
Qed.

(** What the auto-generation check does to the store. *)
Lemma auto_section_store (clock entropy : nat -> Z) (w : World) :
  exists auto,
    stored (snd (auto_section clock entropy w)) = stored w ++ auto
    /\ Forall generated_record auto
    /\ List.length auto
       = (if interval_elapsed (clock (check_index w)) (check_base clock w)
          then 1 else 0)%nat.
Proof.
  unfold auto_section, check_index, check_base.
  destruct (last_auto_time w) as [l|] eqn:Hl.
  - unfold bind at 1, get_last_auto_time at 1. rewrite Hl.
    unfold bind at 1, when, ret at 1.
    unfold bind at 1, datetime_now at 1.
    unfold bind at 1, get_last_auto_time at 1.
    cbn [last_auto_time set_ticks]. rewrite Hl.
    fold (interval_elapsed (clock (ticks w)) l).
    apply (auto_check_arms_store clock entropy (clock (ticks w))
             (interval_elapsed (clock (ticks w)) l)
             (set_ticks (S (ticks w)) w)).
  - unfold bind at 1, get_last_auto_time at 1. rewrite Hl.
    unfold bind at 1, when.
    unfold bind at 1, datetime_now at 1.
    unfold put_last_auto_time at 1.
    unfold bind at 1, datetime_now at 1.
    unfold bind at 1, get_last_auto_time at 1.
    cbn [last_auto_time set_ticks set_last_auto_time ticks].
    fold (interval_elapsed (clock (S (ticks w))) (clock (ticks w))).
    match goal with
    | |- context [ stored (snd (_ ?w1)) ] =>
        apply (auto_check_arms_store clock entropy (clock (S (ticks w)))
                 (interval_elapsed (clock (S (ticks w))) (clock (ticks w))) w1)
    end.
Qed.

Lemma keeps_store_ret {A} (a : A) : keeps_store (ret a).
Proof. intros w. reflexivity. Qed.

Lemma keeps_store_bind {A B} (c : M A) (k : A -> M B) :
  keeps_store c -> (forall a, keeps_store (k a)) -> keeps_store (bind c k).
Proof.
  intros Hc Hk w. unfold bind. specialize (Hc w).
  destruct (c w) as [[a|e] w1]; simpl in *; [rewrite Hk|]; exact Hc.
Qed.

Lemma keeps_store_lift {A} (r : result A) : keeps_store (lift r).
Proof. intros w. reflexivity. Qed.

Lemma keeps_store_st (e : element) : keeps_store (st e).
Proof. intros w. reflexivity. Qed.

Lemma keeps_store_load_data : keeps_store load_data.
Proof. intros w. rewrite load_data_stored. reflexivity. Qed.

#[local] Hint Resolve keeps_store_ret keeps_store_lift keeps_store_st
  keeps_store_load_data : script.

Ltac stored_frame :=
  repeat first
    [ solve [auto with script]
    | apply keeps_store_bind; [|intros ?] ].

Lemma keeps_store_display_section : keeps_store display_section.
Proof.
  unfold display_section. stored_frame.
  match goal with df : DataFrame |- _ => destruct (base df) as [|r t] end;
    [stored_frame|].
  stored_frame.
  destruct (_ && _)%bool; [|stored_frame].
  stored_frame.
  match goal with x : (Series * Z * option Z)%type |- _ =>
    destruct x as [[? ?] ?] end.
  stored_frame.
Qed.

(** What one run of the script does to the store: a clear empties it, a
    click on Record appends the pending counts before that, and the
    auto-generation check appends its sample after it. *)
Lemma main_store (clock entropy : nat -> Z) (i : Input) (w : World) :
  exists r w' manual auto,
    main clock entropy i w = (Ok r, w')
    /\ stored w' = (if clear_clicked i then [] else stored w ++ manual) ++ auto
    /\ manual = (if record_clicked i
                 then [mkRecord (dt_date (clock (ticks w))) (clock (S (ticks w)))
                                (in_cars i) (in_bicycles i) (in_pedestrians i)]
                 else [])
    /\ Forall generated_record auto
    /\ List.length auto = (if generated r then 1 else 0)%nat.
Proof.
  destruct (runs_manual_section clock i w) as ([] & w1 & Hrun1 & _).
  destruct (manual_section_store clock i w) as (Hs1 & _ & _).
  rewrite Hrun1 in Hs1. simpl in Hs1.
  destruct (auto_section_run clock entropy w1) as (w2 & Hrun2 & _).
  destruct (auto_section_store clock entropy w1) as (auto & Hs2 & Hgen & Hlen).
  rewrite Hrun2 in Hs2. simpl in Hs2.
  destruct (display_section_run w2) as (an & w3 & Hrun3 & _).
  pose proof (keeps_store_display_section w2) as Hs3.
  rewrite Hrun3 in Hs3. simpl in Hs3.
  eexists _, w3, _, auto. split.
  { unfold main, bind. rewrite Hrun1, Hrun2, Hrun3. reflexivity. }
  split; [rewrite Hs3, Hs2, Hs1; reflexivity|].
  split; [reflexivity|]. split; [exact Hgen|]. exact Hlen.
Qed.

Lemma adds_ret {A} (P : element -> bool) (a : A) : adds P (ret a).
Proof.
  intros w. exists a, w. split; [reflexivity|].
  exists []. rewrite app_nil_r. split; reflexivity.
Qed.

Lemma adds_bind {A B} (P : element -> bool) (c : M A) (k : A -> M B) :
  adds P c -> (forall a, adds P (k a)) -> adds P (bind c k).
Proof.
  intros Hc Hk w.
  destruct (Hc w) as (a & w1 & Hrun1 & q1 & Hp1 & Hq1).
  destruct (Hk a w1) as (b & w2 & Hrun2 & q2 & Hp2 & Hq2).
  exists b, w2. unfold bind. rewrite Hrun1. split; [exact Hrun2|].
  exists (q1 ++ q2). rewrite Hp2, Hp1, app_assoc. split; [reflexivity|].
  rewrite forallb_app, Hq1, Hq2. reflexivity.
Qed.

Lemma adds_when (P : element -> bool) (b : bool) (c : M unit) :
  adds P c -> adds P (when b c).
Proof. intros Hc. destruct b; [exact Hc | apply adds_ret]. Qed.

Lemma adds_st (P : element -> bool) (e : element) :
  P e = true -> adds P (st e).
Proof.
  intros He w. eexists tt, _. split; [reflexivity|].
  exists [e]. split; [reflexivity|]. simpl. rewrite He. reflexivity.
Qed.

(** A command that returns and leaves the page alone adds nothing. *)
Lemma adds_nothing {A} (P : element -> bool) (c : M A) :
  (forall w, exists a w', c w = (Ok a, w') /\ page w' = page w) ->
  adds P c.
Proof.
  intros Hc w. destruct (Hc w) as (a & w' & Hrun & Hp).
  exists a, w'. split; [exact Hrun|].
  exists []. rewrite app_nil_r. split; [exact Hp | reflexivity].
Qed.

Lemma adds_datetime_now (P : element -> bool) (clock : nat -> Z) :
  adds P (datetime_now clock).
Proof. apply adds_nothing. intros w. eexists _, _. split; reflexivity. Qed.

Lemma adds_randint (P : element -> bool) (entropy : nat -> Z) (a b : Z) :
  adds P (randint entropy a b).
Proof. apply adds_nothing. intros w. eexists _, _. split; reflexivity. Qed.

Lemma adds_add_entry (P : element -> bool) (clock : nat -> Z) (c b p : Z) :
  adds P (add_entry clock c b p).
Proof.
  apply adds_nothing. intros w. eexists _, _.
  split; [apply add_entry_run | reflexivity].
Qed.

Lemma adds_get_last_auto_time (P : element -> bool) : adds P get_last_auto_time.
Proof. apply adds_nothing. intros w. eexists _, _. split; reflexivity. Qed.

Lemma adds_put_last_auto_time (P : element -> bool) (t : Z) :
  adds P (put_last_auto_time t).
Proof. apply adds_nothing. intros w. eexists _, _. split; reflexivity. Qed.

Lemma adds_clear_data : adds is_chrome clear_data.
Proof.
  intros w. unfold clear_data, bind, path_exists, os_remove, st.
  destruct (csv_file w) as [t|] eqn:Hf; [rewrite Hf|];
    (eexists _, _; split; [reflexivity|]);
    eexists [_]; simpl; split; reflexivity.
Qed.

#[local] Hint Resolve adds_ret adds_datetime_now adds_randint adds_add_entry
  adds_get_last_auto_time adds_put_last_auto_time adds_clear_data : script.

(** Splits a sequence of commands that put no data element on the page. *)
Ltac chrome :=
  repeat first
    [ solve [auto with script]
    | apply adds_st; reflexivity
    | apply adds_when
    | apply adds_bind; [|intros ?] ].

Lemma adds_auto_generate_data (clock entropy : nat -> Z) :
  adds is_chrome (auto_generate_data clock entropy).
Proof. unfold auto_generate_data. chrome. Qed.

Lemma adds_manual_section (clock : nat -> Z) (i : Input) :
  adds is_chrome (manual_section clock i).
Proof. unfold manual_section. chrome. Qed.

Lemma adds_auto_check_arms (clock entropy : nat -> Z) (now : Z) (fired : bool) :
  adds is_chrome
       (if fired
        then auto_generate_data clock entropy ;;
             t <- datetime_now clock ;;
             put_last_auto_time t ;;
             ret (now, true)
        else ret (now, false)).
Proof.
  destruct fired; chrome.
Qed.

Lemma adds_auto_section (clock entropy : nat -> Z) :
  adds is_chrome (auto_section clock entropy).
Proof.
  intros w. unfold auto_section.
  destruct (last_auto_time w) as [l|] eqn:Hl.
  - unfold bind at 1, get_last_auto_time at 1. rewrite Hl.
    unfold bind at 1, when, ret at 1.
    unfold bind at 1, datetime_now at 1.
    unfold bind at 1, get_last_auto_time at 1.
    cbn [last_auto_time set_ticks]. rewrite Hl.
    apply (adds_auto_check_arms clock entropy (clock (ticks w))
             (AUTO_INTERVAL_SECONDS * MICROS_PER_SECOND <? clock (ticks w) - l)
             (set_ticks (S (ticks w)) w)).
  - unfold bind at 1, get_last_auto_time at 1. rewrite Hl.
    unfold bind at 1, when.
    unfold bind at 1, datetime_now at 1.
    unfold put_last_auto_time at 1.
    unfold bind at 1, datetime_now at 1.
    unfold bind at 1, get_last_auto_time at 1.
    cbn [last_auto_time set_ticks set_last_auto_time ticks].
    match goal with
    | |- context [ _ ?w1 = (_, _) ] =>
        apply (adds_auto_check_arms clock entropy (clock (S (ticks w)))
                 (AUTO_INTERVAL_SECONDS * MICROS_PER_SECOND
                  <? clock (S (ticks w)) - clock (ticks w)) w1)
    end.
Qed.

(** One run, start to end, seen from the page: whatever the manual and the
    auto-generation sections print is no data element, and the display
    section then shows the table as the run leaves it in the store. *)
Lemma main_view (clock entropy : nat -> Z) (i : Input) (w : World) :
  exists r w' q view,
    main clock entropy i w = (Ok r, w')
    /\ page w' = page w ++ q ++ st_header "Recorded Traffic Data" :: view
    /\ forallb is_chrome q = true
    /\ ((stored w' = [] /\ analysed r = None
         /\ view = [st_info "No data recorded yet."])
        \/ (stored w' <> [] /\ batch_complete (stored w') = false
            /\ analysed r = None
            /\ view = [st_write (stored w'); st_pyplot_line (plot_columns (sort_values (stored w')))])
        \/ (stored w' <> [] /\ batch_complete (stored w') = true
            /\ analysed r = Some (stored w')
            /\ exists hourly peak_hour peak_traffic,
                 snd (analyze_data (frame_of (stored w')))
                 = Ok (hourly, peak_hour, Some peak_traffic)
                 /\ view = [st_write (stored w'); st_pyplot_line (plot_columns (sort_values (stored w')));
                            st_header "Traffic Analysis";
                            st_subheader ("Peak traffic hour: "
                                          ++ string_of_Z peak_hour
                                          ++ ":00 - "
                                          ++ string_of_Z peak_traffic
                                          ++ " total vehicles")%string;
                            st_pyplot_bar hourly])).
Proof.
  destruct (adds_manual_section clock i w) as ([] & w1 & Hrun1 & q1 & Hp1 & Hq1).
  destruct (adds_auto_section clock entropy w1)
    as (chk & w2 & Hrun2 & q2 & Hp2 & Hq2).
  destruct (display_section_view w2)
    as (an & w3 & view & Hrun3 & Hp3 & Hs3 & _ & Hcases).
  exists (mkReport (fst chk) (snd chk) an), w3, (q1 ++ q2), view.
  split.
  { unfold main, bind. rewrite Hrun1, Hrun2, Hrun3. reflexivity. }
  split; [rewrite Hp3, Hp2, Hp1, <- !app_assoc; reflexivity|].
  split; [rewrite forallb_app, Hq1, Hq2; reflexivity|].
  rewrite Hs3. exact Hcases.
Qed.

Lemma stored_set_page (p : list element) (w : World) :
  stored (set_page p w) = stored w.
Proof. reflexivity. Qed.

(** X7: one run of the script changes the stored table in this way only: a
    click on Clear empties it (dropping also what a click on Record has
    just appended); otherwise a click on Record appends one record with
    the pending counts; and after that the auto-generation check appends
    one generated sample exactly when it fires. *)
Theorem rerun_store_effect (clock entropy : nat -> Z) (i : Input) (w : World) :
  exists r w' auto,
    rerun clock entropy i w = (Ok r, w')
    /\ Forall generated_record auto
    /\ List.length auto = (if generated r then 1 else 0)%nat
    /\ stored w'
       = (if clear_clicked i then []
          else stored w
               ++ (if record_clicked i
                   then [mkRecord (dt_date (clock (ticks w)))
                                  (clock (S (ticks w)))
                                  (in_cars i) (in_bicycles i) (in_pedestrians i)]
                   else []))
         ++ auto.
Proof.
  unfold rerun.
  destruct (main_store clock entropy i (set_page [] w))
    as (r & w' & manual & auto & Hrun & Hs & Hm & Hgen & Hlen).
  exists r, w', auto. split; [exact Hrun|].
  split; [exact Hgen|]. split; [exact Hlen|].
  rewrite Hs, Hm. reflexivity.
Qed.

Lemma generated_record_valid (r : TrafficRecord) :
  generated_record r -> valid_record r.
Proof. unfold generated_record, valid_record. lia. Qed.

Lemma rerun_keeps_valid (clock entropy : nat -> Z) (i : Input) (w : World) :
  Forall valid_record (stored w) ->
  nonneg_input i ->
  Forall valid_record (stored (snd (rerun clock entropy i w))).
Proof.
  intros Hv Hi. unfold rerun.
  destruct (main_store clock entropy i (set_page [] w))
    as (r & w' & manual & auto & Hrun & Hs & Hm & Hgen & _).
  rewrite Hrun. simpl. rewrite Hs, stored_set_page.
  apply Forall_app. split.
  - destruct (clear_clicked i); [constructor|].
    apply Forall_app. split; [exact Hv|].
    rewrite Hm. destruct (record_clicked i); [|constructor].
    constructor; [exact Hi | constructor].
  - eapply Forall_impl; [|exact Hgen]. apply generated_record_valid.
Qed.

(** X8: non-negative counts are an invariant of the store. If every
    stored record has non-negative counts and the number inputs of every
    run are non-negative, then after a whole session every stored record
    still has non-negative counts. *)
Theorem session_keeps_records_valid
        (clock entropy : nat -> Z) (inputs : list Input) (w : World) :
  Forall valid_record (stored w) ->
  Forall nonneg_input inputs ->
  Forall valid_record (stored (session_world clock entropy inputs w)).
Proof.
  revert w. induction inputs as [|i inputs IH]; intros w Hv Hin; simpl.
  - exact Hv.
  - inversion Hin as [|? ? Hi Hins]; subst.
    pose proof (rerun_keeps_valid clock entropy i w Hv Hi) as Hstep.
    destruct (rerun clock entropy i w) as [[r|e] w'] eqn:Hrun; simpl in Hstep.
    + apply IH; assumption.
    + exact Hstep.
Qed.

Lemma rerun_store_step (clock entropy : nat -> Z) (i : Input) (w : World) :
  clear_clicked i = false ->
  exists r w' added,
    rerun clock entropy i w = (Ok r, w')
    /\ stored w' = stored w ++ added
    /\ List.length added
       = ((if record_clicked i then 1 else 0)
          + (if generated r then 1 else 0))%nat
    /\ Forall (appended_by [i]) added.
Proof.
  intros Hclear. unfold rerun.
  destruct (main_store clock entropy i (set_page [] w))
    as (r & w' & manual & auto & Hrun & Hs & Hm & Hgen & Hlen).
  exists r, w', (manual ++ auto). split; [exact Hrun|].
  rewrite Hclear, stored_set_page, <- app_assoc in Hs.
  split; [exact Hs|].
  split.
  - rewrite length_app, Hlen, Hm. destruct (record_clicked i); reflexivity.
  - apply Forall_app. split.
    + rewrite Hm. destruct (record_clicked i) eqn:Hrec; [|constructor].
      constructor; [|constructor]. right. exists i.
      split; [left; reflexivity|]. split; [exact Hrec|].
      repeat split.
    + eapply Forall_impl; [|exact Hgen]. intros x Hx. left. exact Hx.
Qed.

Lemma appended_by_weaken (l1 l2 : list Input) (r : TrafficRecord) :
  (forall i, In i l1 -> In i l2) -> appended_by l1 r -> appended_by l2 r.
Proof.
  intros Hsub [Hg|(i & Hi & Hrest)]; [left; exact Hg|].
  right. exists i. split; [apply Hsub, Hi | exact Hrest].
Qed.

(** X9: without a click on Clear nothing is lost, changed or duplicated:
    at the end of a session the table is the table of the start, rows and
    order unchanged, followed by one record per click on Record and one
    per run that generated, each carrying the counts of its run's inputs
    or counts of the generator's ranges. *)
Theorem session_record_count
        (clock entropy : nat -> Z) (inputs : list Input) (w : World) :
  Forall (fun i => clear_clicked i = false) inputs ->
  exists added,
    stored (session_world clock entropy inputs w) = stored w ++ added
    /\ List.length added
       = (List.length (filter record_clicked inputs)
          + List.length (filter generated (session clock entropy inputs w)))%nat
    /\ Forall (appended_by inputs) added.
Proof.
  revert w. induction inputs as [|i inputs IH]; intros w Hin; simpl.
  - exists []. rewrite app_nil_r. repeat split. constructor.
  - inversion Hin as [|? ? Hi Hins]; subst.
    destruct (rerun_store_step clock entropy i w Hi)
      as (r & w' & added1 & Hrun & Hs1 & Hlen1 & Hby1).
    rewrite Hrun.
    destruct (IH w' Hins) as (added2 & Hs2 & Hlen2 & Hby2).
    exists (added1 ++ added2).
    split; [rewrite Hs2, Hs1, app_assoc; reflexivity|].
    split.
    + rewrite length_app, Hlen1, Hlen2. simpl filter.
      destruct (record_clicked i), (generated r); simpl; lia.
    + apply Forall_app. split.
      * eapply Forall_impl; [|exact Hby1]. intros x.
        apply appended_by_weaken. intros j [<-|[]]. left; reflexivity.
      * eapply Forall_impl; [|exact Hby2]. intros x.
        apply appended_by_weaken. intros j Hj. right; exact Hj.
Qed.

(** ** What a run shows *)

Lemma chrome_not_data (q : list element) (e : element) :
  forallb is_chrome q = true -> is_data e = true -> ~ In e q.
Proof.
  intros Hq He Hin. rewrite forallb_forall in Hq.
  specialize (Hq e Hin). unfold is_chrome in Hq. rewrite He in Hq.
  discriminate.
Qed.

Lemma in_view (q view : list element) (h : string) (e : element) :
  forallb is_chrome q = true -> is_data e = true ->
  In e (q ++ st_header h :: view) <-> In e view.
Proof.
  intros Hq He. rewrite in_app_iff. simpl. split.
  - intros [Hin|[Heq|Hin]]; [|subst e; discriminate|exact Hin].
    exfalso. exact (chrome_not_data q e Hq He Hin).
  - intros Hin. right; right. exact Hin.
Qed.






(** X11: a run calls [analyze_data] exactly when the table it has just
    loaded holds a positive multiple of 24 records, and then on that very
    table; the bar chart it shows is the hourly Series [analyze_data]
    returns for it, and no bar chart is shown otherwise. *)
Theorem rerun_analysis_iff
        (clock entropy : nat -> Z) (i : Input) (w : World) :
  exists r w',
    rerun clock entropy i w = (Ok r, w')
    /\ (forall t, analysed r = Some t
                  <-> t = stored w' /\ batch_complete t = true)
    /\ (forall s, In (st_pyplot_bar s) (page w')
                  <-> batch_complete (stored w') = true
                      /\ exists peak_hour peak_traffic,
                           snd (analyze_data (frame_of (stored w')))
                           = Ok (s, peak_hour, peak_traffic)).
Proof.
  unfold rerun.
  destruct (main_view clock entropy i (set_page [] w))
    as (r & w' & q & view & Hrun & Hp & Hq & Hcases).
  exists r, w'. split; [exact Hrun|].
  simpl in Hp. rewrite Hp.
  split.
  - intros t.
    destruct Hcases as [(Hs & -> & _)|[(_ & Hb & -> & _)|(_ & Hb & -> & _)]];
      split.
    + discriminate.
    + intros [-> Hb]. rewrite Hs in Hb. discriminate.
    + discriminate.
    + intros [-> Hb']. congruence.
    + intros H. inversion H. split; [reflexivity | exact Hb].
    + intros [-> _]. reflexivity.
  - intros s. rewrite (in_view q view _ (st_pyplot_bar s) Hq eq_refl).
    destruct Hcases as [(Hs & _ & ->)|[(_ & Hb & _ & ->)|(_ & Hb & _ & h & ph & pt & Hres & ->)]];
      simpl; split.
    + intros [H|[]]; discriminate.
    + intros [Hb _]. rewrite Hs in Hb. discriminate.
    + intros [H|[H|[]]]; discriminate.
    + intros [Hb' _]. congruence.
    + intros [H|[H|[H|[H|[H|[]]]]]]; try discriminate.
      inversion H; subst s. split; [exact Hb|].
      exists ph, (Some pt). exact Hres.
    + intros [_ (ph' & pt' & Hres')]. rewrite Hres in Hres'.
      inversion Hres'. do 4 right. left. reflexivity.
Qed.

(** ** Clock readings *)

(** X12: [add_entry] reads the clock once for the Date column and again for
    the Time column, so under a clock that does not run backwards the Date
    of the appended record is never after the day of its Time, and may be
    the day before it. *)
Theorem add_entry_date_not_after_time
        (clock : nat -> Z) (c b p : Z) (w : World) :
  monotone clock ->
  exists r w',
    add_entry clock c b p w = (Ok tt, w')
    /\ stored w' = stored w ++ [r]
    /\ Date r = dt_date (clock (ticks w))
    /\ Time r = clock (S (ticks w))
    /\ Date r <= dt_date (Time r).
Proof.
  intros Hmono. rewrite add_entry_run. eexists _, _.
  split; [reflexivity|]. split; [reflexivity|].
  split; [reflexivity|]. split; [reflexivity|].
  simpl. unfold dt_date. apply Z.div_le_mono.
  - reflexivity.
  - apply Hmono. lia.
Qed.

(** Across midnight the two columns of the appended record disagree. *)
Example add_entry_across_midnight :
  stored (snd (add_entry midnight_clock 1 2 3 fresh_world))
  = [mkRecord 19674 (19675 * MICROS_PER_DAY) 1 2 3]
  /\ dt_date (19675 * MICROS_PER_DAY) = 19675.
Proof. split; reflexivity. Qed.

(** X13: loading is repeatable. A load returns the rows of the stored table
    and leaves a file holding them; a second load returns the same rows,
    as the parsed frame of that file, and changes nothing at all. *)
Theorem load_data_twice (w : World) :
  exists df w1,
    load_data w = (Ok df, w1)
    /\ base df = stored w
    /\ csv_file w1 = Some (base df)
    /\ load_data w1 = (Ok (frame_of (base df)), w1).
Proof.
  exists (loaded w), (set_csv (Some (stored w)) w).
  split; [apply load_data_stored|]. rewrite base_loaded.
  split; [reflexivity|]. split; [reflexivity|].
  apply load_data_present. reflexivity.
Qed.

(** X14: once the session's [last_auto_time] is set, a run generates a
    sample exactly when the clock reading of its check is more than 10
    seconds after it, whatever the buttons do; a run that does not
    generate leaves [last_auto_time] as it was. *)
Theorem rerun_generates_iff
        (clock entropy : nat -> Z) (i : Input) (w : World) (l : Z) :
  last_auto_time w = Some l ->
  exists r w',
    rerun clock entropy i w = (Ok r, w')
    /\ (generated r = true
        <-> AUTO_INTERVAL_SECONDS * MICROS_PER_SECOND < checked_at r - l)
    /\ (generated r = false -> last_auto_time w' = Some l).
Proof.
  intros Hl. unfold rerun.
  destruct (main_run clock entropy i (set_page [] w))
    as (r & w' & Hrun & _ & _ & w1 & _ & Hl1 & _ & Hgen & _ & Hlast).
  simpl in Hl1. rewrite Hl in Hl1.
  assert (Hbase : check_base clock w1 = l)
    by (unfold check_base; rewrite Hl1; reflexivity).
  rewrite Hbase in *.
  exists r, w'. split; [exact Hrun|]. split.
  - rewrite Hgen. unfold interval_elapsed. apply Z.ltb_lt.
  - intros Hno. rewrite Hno in Hlast. exact Hlast.
Qed.

(** X15: on the first run of a session the check compares two consecutive
    clock readings, the one that initialises [last_auto_time] and the next:
    the run generates exactly when these are more than 10 seconds apart,
    and either way [last_auto_time] is set when the run ends. *)
Theorem rerun_first_run
        (clock entropy : nat -> Z) (i : Input) (w : World) :
  last_auto_time w = None ->
  exists r w' k,
    rerun clock entropy i w = (Ok r, w')
    /\ (ticks w <= k)%nat
    /\ checked_at r = clock (S k)
    /\ (generated r = true
        <-> AUTO_INTERVAL_SECONDS * MICROS_PER_SECOND < clock (S k) - clock k)
    /\ last_auto_time w' <> None.
Proof.
  intros Hl. unfold rerun.
  destruct (main_run clock entropy i (set_page [] w))
    as (r & w' & Hrun & _ & _ & w1 & Ht1 & Hl1 & Hchk & Hgen & _ & Hlast).
  simpl in Hl1, Ht1. rewrite Hl in Hl1.
  assert (Hbase : check_base clock w1 = clock (ticks w1))
    by (unfold check_base; rewrite Hl1; reflexivity).
  assert (Hci : check_index w1 = S (ticks w1))
    by (unfold check_index; rewrite Hl1; reflexivity).
  rewrite Hbase, Hci in *.
  exists r, w', (ticks w1). split; [exact Hrun|]. split; [exact Ht1|].
  split; [exact Hchk|]. split.
  - rewrite Hgen, Hchk. unfold interval_elapsed. apply Z.ltb_lt.
  - destruct (generated r).
    + destruct Hlast as (k' & _ & Hk'). rewrite Hk'. discriminate.
    + rewrite Hlast. discriminate.
Qed.

(** ** Worked instances of the further properties *)

Lemma example_table_valid : Forall valid_record example_table.
Proof. repeat constructor; simpl; lia. Defined.

Lemma example_table_int64 : int64_table example_table.
Proof.
  repeat constructor; unfold in_int64, INT64_MIN, INT64_MAX; simpl; lia.
Defined.

Lemma example_table_fits (h : Z) :
  In h (hours_present example_table) -> in_int64 (hour_total example_table h).
Proof.
  unfold in_int64, INT64_MIN, INT64_MAX.
  intros [<-|[<-|[<-|[]]]]; vm_compute; split; discriminate.
Defined.

Lemma analyze_data_hourly_witness :
  int64_table (base (frame_of example_table))
  /\ snd (analyze_data (frame_of example_table))
     = Ok ([(5, 15); (9, 7)], 5, Some 15)
  /\ increasing [(5, 15); (9, 7)]
  /\ forall h m,
       In (h, m) [(5, 15); (9, 7)]
       <-> In h (hours_present example_table)
           /\ m = hour_total example_table h.
Proof.
  split; [exact example_table_int64|]. split; [reflexivity|].
  destruct (analyze_data_hourly (frame_of example_table)
                                [(5, 15); (9, 7)] 5 (Some 15)
                                example_table_int64 eq_refl)
    as (Hinc & _ & Hfit).
  split; [exact Hinc|]. exact (Hfit example_table_fits).
Defined.

Lemma analyze_data_hourly_size_witness :
  snd (analyze_data (frame_of example_table))
  = Ok ([(5, 15); (9, 7)], 5, Some 15)
  /\ (1 <= List.length ([(5, 15); (9, 7)]%Z : Series) <= 24)%nat
  /\ (forall h m, In (h, m) [(5, 15); (9, 7)] -> 0 <= h <= 23)
  /\ 0 <= 5 <= 23.
Proof.
  split; [reflexivity|].
  apply (analyze_data_hourly_size (frame_of example_table) _ 5 (Some 15)).
  reflexivity.
Defined.

Lemma analyze_data_conserves_total_witness :
  int64_table (base (frame_of example_table))
  /\ snd (analyze_data (frame_of example_table))
     = Ok ([(5, 15); (9, 7)], 5, Some 15)
  /\ Forall valid_record example_table
  /\ grand_total example_table <= INT64_MAX
  /\ series_sum [(5, 15); (9, 7)] = grand_total example_table.
Proof.
  assert (Hfit : grand_total example_table <= INT64_MAX)
    by (vm_compute; discriminate).
  split; [exact example_table_int64|]. split; [reflexivity|].
  split; [exact example_table_valid|]. split; [exact Hfit|].
  apply (proj2 (analyze_data_conserves_total (frame_of example_table)
                  [(5, 15); (9, 7)] 5 (Some 15)
                  example_table_int64 eq_refl));
    [exact example_table_valid | exact Hfit].
Defined.

Lemma analyze_data_row_order_witness :
  Time_dtype (frame_of tied_table) = Time_dtype (frame_of (rev tied_table))
  /\ Permutation tied_table (rev tied_table)
  /\ snd (analyze_data (frame_of tied_table))
     = snd (analyze_data (frame_of (rev tied_table))).
Proof.
  split; [reflexivity|].
  split; [apply Permutation_rev|].
  apply (analyze_data_row_order (frame_of tied_table)
                                (frame_of (rev tied_table)));
    [reflexivity | apply Permutation_rev].
Defined.

Lemma analyze_data_peak_bounds_witness :
  Forall valid_record example_table
  /\ grand_total example_table <= INT64_MAX
  /\ snd (analyze_data (frame_of example_table))
     = Ok ([(5, 15); (9, 7)], 5, Some 15)
  /\ (forall r, In r example_table -> total_of r <= 15)
  /\ 15 <= grand_total example_table.
Proof.
  assert (Hfit : grand_total example_table <= INT64_MAX)
    by (vm_compute; discriminate).
  split; [exact example_table_valid|]. split; [exact Hfit|].
  split; [reflexivity|].
  apply (analyze_data_peak_bounds (frame_of example_table)
                                  [(5, 15); (9, 7)] 5 15).
  - exact example_table_valid.
  - exact Hfit.
  - reflexivity.
Defined.

Lemma session_keeps_records_valid_witness :
  Forall valid_record (stored fresh_world)
  /\ Forall nonneg_input [busy_input; idle_input]
  /\ Forall valid_record
            (stored (session_world sample_clock sample_entropy
                                   [busy_input; idle_input] fresh_world)).
Proof.
  assert (Hin : Forall nonneg_input [busy_input; idle_input])
    by (repeat constructor; simpl; lia).
  split; [constructor|]. split; [exact Hin|].
  apply (session_keeps_records_valid sample_clock sample_entropy
           [busy_input; idle_input] fresh_world);
    [constructor | exact Hin].
Defined.

Lemma session_record_count_witness :
  Forall (fun i => clear_clicked i = false) (busy_input :: repeat idle_input 7)
  /\ exists added,
       stored (session_world sample_clock sample_entropy
                             (busy_input :: repeat idle_input 7) fresh_world)
       = stored fresh_world ++ added
       /\ List.length added
          = (List.length (filter record_clicked
                                 (busy_input :: repeat idle_input 7))
             + List.length (filter generated
                              (session sample_clock sample_entropy
                                       (busy_input :: repeat idle_input 7)
                                       fresh_world)))%nat
       /\ Forall (appended_by (busy_input :: repeat idle_input 7)) added.
Proof.
  assert (Hin : Forall (fun i => clear_clicked i = false)
                       (busy_input :: repeat idle_input 7))
    by (repeat constructor).
  split; [exact Hin|].
  apply (session_record_count sample_clock sample_entropy
           (busy_input :: repeat idle_input 7) fresh_world Hin).
Defined.


Lemma rerun_analysis_iff_witness :
  batch_complete full_batch = true
  /\ exists r w',
       rerun sample_clock sample_entropy idle_input batch_world = (Ok r, w')
       /\ (forall t, analysed r = Some t
                     <-> t = stored w' /\ batch_complete t = true)
       /\ (forall s, In (st_pyplot_bar s) (page w')
                     <-> batch_complete (stored w') = true
                         /\ exists peak_hour peak_traffic,
                              snd (analyze_data (frame_of (stored w')))
                              = Ok (s, peak_hour, peak_traffic)).
Proof.
  split; [reflexivity|].
  apply (rerun_analysis_iff sample_clock sample_entropy idle_input batch_world).
Defined.

Lemma add_entry_date_not_after_time_witness :
  monotone sample_clock
  /\ exists r w',
       add_entry sample_clock 3 1 4 fresh_world = (Ok tt, w')
       /\ stored w' = stored fresh_world ++ [r]
       /\ Date r = dt_date (sample_clock (ticks fresh_world))
       /\ Time r = sample_clock (S (ticks fresh_world))
       /\ Date r <= dt_date (Time r).
Proof.
  split; [exact sample_clock_monotone|].
  apply (add_entry_date_not_after_time sample_clock 3 1 4 fresh_world).
  exact sample_clock_monotone.
Defined.

Lemma rerun_generates_iff_witness :
  last_auto_time running_world = Some 1700000000000000
  /\ exists r w',
       rerun sample_clock sample_entropy idle_input running_world = (Ok r, w')
       /\ (generated r = true
           <-> AUTO_INTERVAL_SECONDS * MICROS_PER_SECOND
               < checked_at r - 1700000000000000)
       /\ (generated r = false
           -> last_auto_time w' = Some 1700000000000000).
Proof.
  split; [reflexivity|].
  apply (rerun_generates_iff sample_clock sample_entropy idle_input
                             running_world 1700000000000000).
  reflexivity.
Defined.

Lemma rerun_first_run_witness :
  last_auto_time fresh_world = None
  /\ exists r w' k,
       rerun sample_clock sample_entropy idle_input fresh_world = (Ok r, w')
       /\ (ticks fresh_world <= k)%nat
       /\ checked_at r = sample_clock (S k)
       /\ (generated r = true
           <-> AUTO_INTERVAL_SECONDS * MICROS_PER_SECOND
               < sample_clock (S k) - sample_clock k)
       /\ last_auto_time w' <> None.
Proof.
  split; [reflexivity|].
  apply (rerun_first_run sample_clock sample_entropy idle_input fresh_world).
  reflexivity.
Defined.
